(** * app-functions-sdk-go: the MQTT export sender and the message-bus trigger

    A shallow embedding of [transforms.MQTTSender] (its configuration,
    constructor and [MQTTSend]) and of [messagebus.Trigger.Initialize]
    with its worker loop, followed by the properties of the design
    document that concern them.

    Calls into collaborators (the paho MQTT client, the message-bus
    client, the logging client, the event store) are recorded in a
    chronological trace; what a collaborator answers is supplied by an
    environment record, so every theorem quantifies over all answers. *)

From Stdlib Require Import Strings.String Strings.Ascii Strings.Byte.
From Stdlib Require Import ZArith List Bool Lia DecimalString.
From stdpp Require Import base option list gmap strings.

Open Scope string_scope.

(** ** Go values shared by both packages *)
Module Go.

(** A non-nil Go [error], identified with the text of its [Error()]. *)
Definition error : Type := string.

Definition errors_New (text : string) : error := text.

(** An [interface{}] value travelling through the pipeline, by dynamic
    type.  [INil] is the nil interface. *)
Inductive iface : Type :=
| INil
| IString (s : string)
| IBytes (b : list byte)
| IError (e : error)
| IEvent (id : string)
| IOther (typeName : string).

(** The result of a call that may panic. *)
Inductive outcome (A : Type) : Type :=
| Panic
| Return (a : A).
Arguments Panic {A}.
Arguments Return {A} a.

(** Comparison of an [error] value with nil. *)
Definition is_nil {A : Type} (o : option A) : bool :=
  match o with
  | None => true
  | Some _ => false
  end.

(** The [ok] of the type assertion [v.(string)]. *)
Definition is_string (v : iface) : bool :=
  match v with
  | IString _ => true
  | _ => false
  end.

(** [%v] of an [error] value that may be nil. *)
Definition fmt_v (e : option error) : string :=
  match e with
  | Some text => text
  | None => "<nil>"
  end.

(** [strings.ToLower] on ASCII text: the letters A..Z are mapped to
    a..z, every other byte is kept. *)
Definition lower_ascii (c : ascii) : ascii :=
  let n := nat_of_ascii c in
  if ((65 <=? n) && (n <=? 90))%nat then ascii_of_nat (n + 32) else c.

Fixpoint ToLower (s : string) : string :=
  match s with
  | EmptyString => EmptyString
  | String c rest => String (lower_ascii c) (ToLower rest)
  end.

(** [strconv.Itoa]: decimal digits, a leading minus sign when negative. *)
Definition Itoa (i : Z) : string := NilZero.string_of_int (Z.to_int i).

(** [strings.HasPrefix]. *)
Definition HasPrefix (s p : string) : bool := String.prefix p s.

End Go.

(** ** Logging and the trace of collaborator calls *)
Module Effects.
Import Go.

Inductive LogLevel : Type := TRACE | DEBUG | INFO | WARN | ERROR.

(** [logger.LoggingClient], the handle.  What is logged through it is
    in the trace; as an interface value it may be nil, which is [None]
    of [option LoggingClient], and a call through nil panics. *)
Inductive LoggingClient : Type := Logger.

(** The bus envelope of go-mod-messaging ([types.MessageEnvelope]). *)
Record MessageEnvelope : Type := {
  CorrelationID : string;
  Payload : option (list byte);
  ContentType : string
}.

Inductive event : Type :=
| Log (lvl : LogLevel) (msg : string) (args : list string)
(* paho MQTT client *)
| ClientIsConnected
| ClientConnect
| ClientPublish (topic : string) (qos : byte) (retained : bool)
                (payload : list byte)
(* appcontext.Context *)
| CtxMarkAsPushed
(* crypto/tls *)
| LoadKeyPair (certFile key : string)
(* go-mod-messaging *)
| NewMessageClientCall
| BusSubscribe (topics : list string)
| BusPublish (envelope : MessageEnvelope) (topic : string)
(* internal/runtime *)
| RunPipeline (envelope : MessageEnvelope)
(* go statement *)
| GoWorker.

Definition is_publish (e : event) : bool :=
  match e with ClientPublish _ _ _ _ => true | _ => false end.
Definition is_connect (e : event) : bool :=
  match e with ClientConnect => true | _ => false end.
Definition is_mark (e : event) : bool :=
  match e with CtxMarkAsPushed => true | _ => false end.
Definition is_load (e : event) : bool :=
  match e with LoadKeyPair _ _ => true | _ => false end.
Definition is_bus_publish (e : event) : bool :=
  match e with BusPublish _ _ => true | _ => false end.
Definition is_run (e : event) : bool :=
  match e with RunPipeline _ => true | _ => false end.
Definition is_error_log (e : event) : bool :=
  match e with Log ERROR _ _ => true | _ => false end.

(** How often a kind of call occurs in a trace. *)
Definition count (p : event -> bool) (tr : list event) : nat :=
  length (List.filter p tr).

(** The constants of go-mod-core-contracts/clients used below. *)
Definition CorrelationHeader : string := "correlation-id".
Definition ContentTypeJSON : string := "application/json".

End Effects.

(** ** Configuration and execution context *)
Module Common.

(** [common.ConfigurationStruct], the part the trigger reads: the
    [Binding] section and the opaque message-bus settings. *)
Record BindingInfo : Type := {
  BindingType : string;
  SubscribeTopic : string;
  PublishTopic : string
}.

Record ConfigurationStruct : Type := {
  Binding : BindingInfo;
  MessageBus : string
}.

End Common.

Module Appcontext.
Import Go Effects Common.

(** [appcontext.Context].  The logging client and the event client are
    handles; calls through them appear in the trace.  [OutputData] is a
    byte slice, [None] when nil. *)
Record Context : Type := {
  Configuration : ConfigurationStruct;
  CtxCorrelationID : string;
  OutputData : option (list byte);
  EventID : string;
  EventChecksum : string
}.

(** Modelled from the spec: package appcontext is not under src/.
    "Complete(payload): sets the output slot; idempotent only in the
    sense that the last call wins; has no other side effect." *)
Definition Complete (context : Context) (output : option (list byte)) : Context :=
  {| Configuration := Configuration context;
     CtxCorrelationID := CtxCorrelationID context;
     OutputData := output;
     EventID := EventID context;
     EventChecksum := EventChecksum context |}.

(** Modelled from the spec: the two mutating operations a stage may
    call on the context.  MarkAsPushed talks to the event store and
    leaves the context as it is. *)
Inductive ctx_op : Type :=
| OpComplete (output : option (list byte))
| OpMarkAsPushed.

Definition apply_op (context : Context) (op : ctx_op) : Context :=
  match op with
  | OpComplete output => Complete context output
  | OpMarkAsPushed => context
  end.

End Appcontext.

(** ** Package transforms: the MQTT export sender *)
Module Transforms.
Import Go Effects Common Appcontext.

(** MqttConfig contains mqtt client parameters. *)
Record MqttConfig : Type := {
  qos : byte;
  retain : bool;
  autoreconnect : bool
}.

(** [tls.Certificate] and the fields of [tls.Config] the constructor sets. *)
Definition Certificate : Type := list byte.

Record TLSConfigT : Type := {
  ClientCAs : option (list Certificate);
  InsecureSkipVerify : bool;
  Certificates : list Certificate
}.

(** paho's [ClientOptions], the fields the constructor touches.
    [Servers] keeps the strings handed to [AddBroker]; the URL parsing
    paho applies to them is outside the model. *)
Record ClientOptions : Type := {
  Servers : list string;
  ClientID : string;
  Username : string;
  Password : string;
  AutoReconnect : bool;
  TLSConfig : option TLSConfigT
}.

Definition NewClientOptions : ClientOptions :=
  {| Servers := []; ClientID := ""; Username := ""; Password := "";
     AutoReconnect := true; TLSConfig := None |}.

Definition AddBroker (o : ClientOptions) (server : string) : ClientOptions :=
  {| Servers := Servers o ++ [server]; ClientID := ClientID o;
     Username := Username o; Password := Password o;
     AutoReconnect := AutoReconnect o; TLSConfig := TLSConfig o |}.

Definition SetClientID (o : ClientOptions) (id : string) : ClientOptions :=
  {| Servers := Servers o; ClientID := id;
     Username := Username o; Password := Password o;
     AutoReconnect := AutoReconnect o; TLSConfig := TLSConfig o |}.

Definition SetUsername (o : ClientOptions) (u : string) : ClientOptions :=
  {| Servers := Servers o; ClientID := ClientID o;
     Username := u; Password := Password o;
     AutoReconnect := AutoReconnect o; TLSConfig := TLSConfig o |}.

Definition SetPassword (o : ClientOptions) (p : string) : ClientOptions :=
  {| Servers := Servers o; ClientID := ClientID o;
     Username := Username o; Password := p;
     AutoReconnect := AutoReconnect o; TLSConfig := TLSConfig o |}.

Definition SetAutoReconnect (o : ClientOptions) (a : bool) : ClientOptions :=
  {| Servers := Servers o; ClientID := ClientID o;
     Username := Username o; Password := Password o;
     AutoReconnect := a; TLSConfig := TLSConfig o |}.

Definition SetTLSConfig (o : ClientOptions) (t : TLSConfigT) : ClientOptions :=
  {| Servers := Servers o; ClientID := ClientID o;
     Username := Username o; Password := Password o;
     AutoReconnect := AutoReconnect o; TLSConfig := Some t |}.

(** [MQTT.Client]: the handle returned by [MQTT.NewClient].  Whether it
    is connected is part of the world, not of the handle. *)
Record Client : Type := { options : ClientOptions }.

Definition NewClient (o : ClientOptions) : Client := {| options := o |}.

Record MQTTSender : Type := {
  client : Client;
  topic : string;
  opts : MqttConfig
}.

(** *** The store of configurations

    [NewMqttConfig] hands out a pointer, the setters have value
    receivers and the constructor takes a pointer: configurations live
    in a heap, a pointer is a location or nil. *)
Abbreviation loc := nat (only parsing).
Abbreviation heap := (gmap nat MqttConfig) (only parsing).

Definition deref (h : heap) (p : option loc) : option MqttConfig :=
  match p with
  | Some l => h !! l
  | None => None
  end.

(** NewMqttConfig returns a new MqttConfig with default values. *)
Definition NewMqttConfig (h : heap) : loc * heap :=
  let mqttConfig := fresh (dom h) in
  let h := <[mqttConfig := {| qos := x00; retain := false; autoreconnect := false |}]> h in
  let h := alter (fun c => {| qos := x00; retain := retain c; autoreconnect := autoreconnect c |}) mqttConfig h in
  let h := alter (fun c => {| qos := qos c; retain := false; autoreconnect := autoreconnect c |}) mqttConfig h in
  let h := alter (fun c => {| qos := qos c; retain := retain c; autoreconnect := false |}) mqttConfig h in
  (mqttConfig, h).

(** The bodies of the three setters, as functions on the frame of the
    call: the receiver variable [mqttConfig] is a local of the method,
    the value returned here is its content when the method ends. *)
Definition SetRetain (mqttConfig : MqttConfig) (retain' : bool) : MqttConfig :=
  {| qos := qos mqttConfig; retain := retain';
     autoreconnect := autoreconnect mqttConfig |}.

Definition SetQos (mqttConfig : MqttConfig) (qos' : byte) : MqttConfig :=
  {| qos := qos'; retain := retain mqttConfig;
     autoreconnect := autoreconnect mqttConfig |}.

Definition SetAutoreconnect (mqttConfig : MqttConfig) (reconnect : bool) : MqttConfig :=
  {| qos := qos mqttConfig; retain := retain mqttConfig;
     autoreconnect := reconnect |}.

(** A call [p.Set...(v)] through a pointer [p]: Go copies [*p] into the
    receiver variable of the method, runs the body on that copy and
    drops the frame when the method returns.  The result is the heap
    after the call together with the frame as it was on return; a nil
    pointer panics. *)
Definition call_by_value {A : Type} (body : MqttConfig -> A -> MqttConfig)
    (h : heap) (p : option loc) (arg : A) : outcome (heap * MqttConfig) :=
  match deref h p with
  | Some receiver => Return (h, body receiver arg)
  | None => Panic
  end.

(** The setter calls a program can make on a configuration. *)
Inductive setter_call : Type :=
| CallSetQos (v : byte)
| CallSetRetain (v : bool)
| CallSetAutoreconnect (v : bool).

Definition exec_setter (h : heap) (p : option loc) (c : setter_call)
    : outcome (heap * MqttConfig) :=
  match c with
  | CallSetQos v => call_by_value SetQos h p v
  | CallSetRetain v => call_by_value SetRetain h p v
  | CallSetAutoreconnect v => call_by_value SetAutoreconnect h p v
  end.

(** A sequence of setter calls on the same pointer. *)
Fixpoint exec_setters (h : heap) (p : option loc) (cs : list setter_call)
    : outcome heap :=
  match cs with
  | [] => Return h
  | c :: rest =>
      match exec_setter h p c with
      | Return (h', _) => exec_setters h' p rest
      | Panic => Panic
      end
  end.

(** *** The constructor *)

(** The protocols for which the constructor loads a key pair. *)
Definition tls_protocol (protocol : string) : bool :=
  (protocol =? "tcps") || (protocol =? "ssl") || (protocol =? "tls").

Section Constructor.

(** [tls.LoadX509KeyPair]: what the file system holds decides the answer. *)
Variable LoadX509KeyPair : string -> string -> Certificate + error.

(** [models.Addressable] of go-mod-core-contracts, the fields read here. *)
Record Addressable : Type := {
  Protocol : string;
  Address : string;
  Port : Z;
  Path : string;
  Publisher : string;
  User : string;
  AddrPassword : string;
  Topic : string
}.

(** NewMQTTSender - create new mqtt sender.  The result is what the
    call returns (nil is [None]) or a panic, with the trace of the calls
    to the logging client and to crypto/tls.  The two places that can
    panic are [config.autoreconnect] on a nil [config] and
    [logging.Error] on a nil [logging]. *)
Definition NewMQTTSender (h : heap) (logging : option LoggingClient)
    (addr : Addressable) (certFile key : string) (config : option loc)
    : outcome (option MQTTSender) * list event :=
  let protocol := ToLower (Protocol addr) in
  let opts0 := NewClientOptions in
  let broker := protocol ++ "://" ++ Address addr ++ ":" ++ Itoa (Port addr) ++ Path addr in
  let opts1 := AddBroker opts0 broker in
  let opts2 := SetClientID opts1 (Publisher addr) in
  let opts3 := SetUsername opts2 (User addr) in
  let opts4 := SetPassword opts3 (AddrPassword addr) in
  match deref h config with
  | None => (Panic, [])
  | Some cfg =>
      let opts5 := SetAutoReconnect opts4 (autoreconnect cfg) in
      if tls_protocol protocol then
        match LoadX509KeyPair certFile key with
        | inr err =>
            match logging with
            | Some _ =>
                (Return None,
                 [LoadKeyPair certFile key;
                  Log ERROR "Failed loading x509 data" []])
            | None => (Panic, [LoadKeyPair certFile key])
            end
        | inl cert =>
            let tlsConfig :=
              {| ClientCAs := None; InsecureSkipVerify := true;
                 Certificates := [cert] |} in
            let opts6 := SetTLSConfig opts5 tlsConfig in
            (Return (Some {| client := NewClient opts6; topic := Topic addr;
                             opts := cfg |}),
             [LoadKeyPair certFile key])
        end
      else
        (Return (Some {| client := NewClient opts5; topic := Topic addr;
                         opts := cfg |}),
         [])
  end.

End Constructor.

(** *** Sending

    The state a call of [MQTTSend] works on: whether the shared client
    is connected, and the trace so far. *)
Record World : Type := {
  connected : bool;
  trace : list event
}.

(** What the collaborators answer during one call: the error of the
    connect token, of the publish token and of [MarkAsPushed], [None]
    for nil. *)
Record Env : Type := {
  connectErr : option error;
  publishErr : option error;
  markErr : option error
}.

(** State passing over [World]. *)
Definition M (A : Type) : Type := World -> A * World.

#[export] Instance M_ret : MRet M := fun A a w => (a, w).
#[export] Instance M_bind : MBind M :=
  fun A B f m w => let (a, w') := m w in f a w'.

Definition emit (e : event) : M unit :=
  fun w => (tt, {| connected := connected w; trace := trace w ++ [e] |}).

Definition set_connected (b : bool) : M unit :=
  fun w => (tt, {| connected := b; trace := trace w |}).

Definition get_connected : M bool := fun w => (connected w, w).

(** [MQTT.Token].  paho's [Wait] blocks until the operation is over and
    then returns true; [Error] is the error it ended with. *)
Record Token : Type := { tokenErr : option error }.

Definition Wait (token : Token) : bool := true.
Definition Error (token : Token) : option error := tokenErr token.

Section Send.

Variable env : Env.

Definition IsConnected (c : Client) : M bool :=
  emit ClientIsConnected;; get_connected.

Definition Connect (c : Client) : M Token :=
  emit ClientConnect;;
  (if connectErr env is None then set_connected true else mret tt);;
  mret {| tokenErr := connectErr env |}.

Definition Publish (c : Client) (topic : string) (qos : byte) (retained : bool)
    (payload : list byte) : M Token :=
  emit (ClientPublish topic qos retained payload);;
  mret {| tokenErr := publishErr env |}.

Definition MarkAsPushed (edgexcontext : Context) : M (option error) :=
  emit CtxMarkAsPushed;; mret (markErr env).

Definition LoggingClient_Info (msg : string) : M unit := emit (Log INFO msg []).
Definition LoggingClient_Error (msg : string) : M unit := emit (Log ERROR msg []).
Definition LoggingClient_Trace (msg : string) (args : list string) : M unit :=
  emit (Log TRACE msg args).

(** Lines 84 to 100 of the sender: the type switch on the first
    parameter, the publish and the retention mark. *)
Definition send_data (sender : MQTTSender) (edgexcontext : Context)
    (param0 : iface) : M (bool * iface) :=
  match param0 with
  | IString data =>
      token ← Publish (client sender) (topic sender) (qos (opts sender))
                (retain (opts sender)) (list_byte_of_string data);
      let _ := Wait token in
      match Error token with
      | Some e => mret (false, IError e)
      | None =>
          LoggingClient_Info "Sent data to MQTT Broker";;
          LoggingClient_Trace "Data exported"
            ["Transport"; "MQTT"; CorrelationHeader; CtxCorrelationID edgexcontext];;
          err ← MarkAsPushed edgexcontext;
          (if err is Some e then LoggingClient_Error e else mret tt);;
          mret (true, INil)
      end
  | _ => mret (false, IError (errors_New "Unexpected type received"))
  end.

(** MQTTSend ... *)
Definition MQTTSend (sender : MQTTSender) (edgexcontext : Context)
    (params : list iface) : M (bool * iface) :=
  match params with
  | [] =>
      (* len(params) < 1: we didn't receive a result *)
      mret (false, IError (errors_New "No Data Received"))
  | param0 :: _ =>
      isConnected ← IsConnected (client sender);
      if negb isConnected then
        LoggingClient_Info "Connecting to mqtt server";;
        token ← Connect (client sender);
        if Wait token && negb (is_nil (Error token)) then
          mret (false,
                IError ("Could not connect to mqtt server, drop event. Error: "
                        ++ default "" (Error token)))
        else
          LoggingClient_Info "Connected to mqtt server";;
          send_data sender edgexcontext param0
      else
        send_data sender edgexcontext param0
  end.

End Send.

(** Whether the connection step lets the call go on:
    the client was connected, or the connect attempt ended without an
    error (lines 77 to 83). *)
Definition passes_connect (env : Env) (isConnected : bool) : bool :=
  isConnected || is_nil (connectErr env).

(** The trace of the connection step alone. *)
Definition connect_trace (env : Env) (isConnected : bool) : list event :=
  if isConnected then [ClientIsConnected]
  else if is_nil (connectErr env)
       then [ClientIsConnected; Log INFO "Connecting to mqtt server" [];
             ClientConnect; Log INFO "Connected to mqtt server" []]
       else [ClientIsConnected; Log INFO "Connecting to mqtt server" [];
             ClientConnect].

(** A call from a given client state with an empty trace: the result
    and the trace of the call. *)
Definition run_send (env : Env) (isConnected : bool) (sender : MQTTSender)
    (edgexcontext : Context) (params : list iface) : (bool * iface) * World :=
  MQTTSend env sender edgexcontext params
    {| connected := isConnected; trace := [] |}.

End Transforms.

(** ** Package runtime *)
Module Runtime.
Import Go Effects Common Appcontext.

(** Modelled from the spec: internal/runtime is not under src/.
    "ProcessEvent(context, rawArrival) -> void (side effects land in
    context)".  The stages are opaque callables and the context's output
    slot is their sole channel back to the trigger, so a run is
    described by the context operations its stages perform, in order;
    [ops] is that list for the run at hand. *)
Definition ProcessEvent (ops : list ctx_op) (edgexcontext : Context)
    (envelope : MessageEnvelope) : Context :=
  fold_left apply_op ops edgexcontext.

End Runtime.

(** ** Package messagebus: the bus-subscription trigger *)
Module Messagebus.
Import Go Effects Common Appcontext Runtime.

(** [messaging.MessageClient], the handle. *)
Record MessageClient : Type := { busSettings : string }.

(** Trigger implements Trigger to support MessageBusData.  [Runtime],
    [logging] and [EventClient] are handles whose calls appear in the
    trace; [topics] keeps the topic of each [types.TopicChannel]. *)
Record Trigger : Type := {
  Configuration : ConfigurationStruct;
  client : option MessageClient;
  topics : list string
}.

(** What the message-bus library answers during [Initialize]: the
    error of [messaging.NewMessageClient] and the error returned by
    [MessageClient.Subscribe], [None] for nil. *)
Record InitEnv : Type := {
  newClientErr : option error;
  subscribeErr : option error
}.

(** What happens while one arrival is handled: the context operations
    of the pipeline run and the error returned by
    [MessageClient.Publish], should it be called. *)
Record ArrivalEnv : Type := {
  stageOps : list ctx_op;
  busPublishErr : option error
}.

(** What the [select] statement of the worker receives. *)
Inductive received : Type :=
| FromMessageErrors (msgErr : option error)
| FromMessages (msgs : MessageEnvelope) (env : ArrivalEnv).

(** The result of [Initialize]: the returned error ([None] for nil),
    the trigger as the call left it, the trace, and whether the worker
    goroutine was started. *)
Record InitResult : Type := {
  returned : option error;
  triggerAfter : Trigger;
  initTrace : list event;
  workerStarted : bool
}.

(** Initialize ... (lines 43 to 56 and 89; the goroutine is [worker]
    below). *)
Definition Initialize (env : InitEnv) (trigger : Trigger) : InitResult :=
  let tr0 :=
    [Log INFO ("Initializing Message Bus Trigger. Subscribing to topic: "
               ++ SubscribeTopic (Binding (Configuration trigger))
               ++ ", Publish Topic: "
               ++ PublishTopic (Binding (Configuration trigger))) [];
     NewMessageClientCall] in
  match newClientErr env with
  | Some err =>
      {| returned := Some err;
         triggerAfter := {| Configuration := Configuration trigger;
                            client := None; topics := topics trigger |};
         initTrace := tr0; workerStarted := false |}
  | None =>
      let topics' := [SubscribeTopic (Binding (Configuration trigger))] in
      let trigger' :=
        {| Configuration := Configuration trigger;
           client := Some {| busSettings := MessageBus (Configuration trigger) |};
           topics := topics' |} in
      (* trigger.client.Subscribe(trigger.topics, messageErrors): the
         returned error is not bound to anything *)
      let _ := subscribeErr env in
      {| returned := None;
         triggerAfter := trigger';
         initTrace := tr0 ++ [BusSubscribe topics'; GoWorker];
         workerStarted := true |}
  end.

(** The context the worker builds for an arrival. *)
Definition new_context (trigger : Trigger) (msgs : MessageEnvelope) : Context :=
  {| Appcontext.Configuration := Configuration trigger;
     CtxCorrelationID := CorrelationID msgs;
     OutputData := None;
     EventID := "";
     EventChecksum := "" |}.

(** The [case msgs := <-trigger.topics[0].Messages] branch. *)
Definition on_message (trigger : Trigger) (msgs : MessageEnvelope)
    (env : ArrivalEnv) : list event :=
  let publishTopic := PublishTopic (Binding (Configuration trigger)) in
  let tr0 :=
    [Log TRACE "Received message from bus"
       ["topic"; publishTopic; CorrelationHeader; CorrelationID msgs];
     RunPipeline msgs] in
  let edgexContext := ProcessEvent (stageOps env) (new_context trigger msgs) msgs in
  match OutputData edgexContext with
  | Some output =>
      let outputEnvelope :=
        {| CorrelationID := CtxCorrelationID edgexContext;
           Payload := Some output;
           ContentType := ContentTypeJSON |} in
      tr0 ++ [BusPublish outputEnvelope publishTopic]
          ++ (if busPublishErr env is Some err
              then [Log ERROR ("Failed to publish Message to bus, " ++ err) []]
              else [])
          ++ [Log TRACE "Published message to bus"
                ["topic"; publishTopic; CorrelationHeader; CorrelationID msgs]]
  | None => tr0
  end.

(** One pass through the body of [for receiveMessage { select ... }]:
    the trace of the pass and the value of [receiveMessage] after it.
    Neither branch assigns the variable. *)
Definition iteration (trigger : Trigger) (receiveMessage : bool)
    (r : received) : list event * bool :=
  match r with
  | FromMessageErrors msgErr =>
      ([Log ERROR ("Failed to receive ZMQ Message, " ++ fmt_v msgErr) []],
       receiveMessage)
  | FromMessages msgs env =>
      (on_message trigger msgs env, receiveMessage)
  end.

(** Where the worker stands once the given inputs are used up. *)
Inductive worker_state : Type :=
| Waiting    (* blocked in [select], ready for the next input *)
| Exited     (* the loop condition was false *)
| Panicked.  (* [trigger.topics[0]] with no topic *)

(** The worker goroutine on a finite prefix of what its two channels
    deliver: the trace, the state it ends in, and the inputs it left
    unserved.  Entering [select] evaluates [trigger.topics[0].Messages]. *)
Fixpoint worker (trigger : Trigger) (receiveMessage : bool)
    (inputs : list received) : list event * worker_state * list received :=
  if receiveMessage then
    match topics trigger with
    | [] => ([], Panicked, inputs)
    | _ :: _ =>
        match inputs with
        | [] => ([], Waiting, [])
        | r :: rest =>
            let (tr, receiveMessage') := iteration trigger receiveMessage r in
            let '(tr', st, unserved) := worker trigger receiveMessage' rest in
            ((tr ++ tr')%list, st, unserved)
        end
    end
  else ([], Exited, inputs).

(** The goroutine as [Initialize] starts it: [receiveMessage := true]. *)
Definition run_worker (trigger : Trigger) (inputs : list received)
    : list event * worker_state * list received :=
  worker trigger true inputs.

(** *** Reading inputs and traces *)

(** The payload of a [Complete] call. *)
Definition completes (op : ctx_op) : option (option (list byte)) :=
  match op with
  | OpComplete output => Some output
  | OpMarkAsPushed => None
  end.

(** The envelope of an arrival, the envelope of a pipeline run. *)
Definition arrival_of (r : received) : option MessageEnvelope :=
  match r with
  | FromMessages msgs _ => Some msgs
  | FromMessageErrors _ => None
  end.

Definition run_of (e : event) : option MessageEnvelope :=
  match e with
  | RunPipeline msgs => Some msgs
  | _ => None
  end.

(** The output slot after the pipeline run of an arrival. *)
Definition output_of (trigger : Trigger) (msgs : MessageEnvelope)
    (env : ArrivalEnv) : option (list byte) :=
  OutputData (ProcessEvent (stageOps env) (new_context trigger msgs) msgs).

(** An arrival whose run leaves the output slot set. *)
Definition has_output (trigger : Trigger) (r : received) : bool :=
  match r with
  | FromMessages msgs env => negb (is_nil (output_of trigger msgs env))
  | FromMessageErrors _ => false
  end.

(** An input with a failure: an error notification, or an arrival with
    output whose publish fails. *)
Definition has_failure (trigger : Trigger) (r : received) : bool :=
  match r with
  | FromMessages msgs env =>
      negb (is_nil (output_of trigger msgs env)) && negb (is_nil (busPublishErr env))
  | FromMessageErrors _ => true
  end.

End Messagebus.

(** ** Sample values *)
Module Samples.
Import Go Effects Common Appcontext Transforms Messagebus.

Definition defaults : MqttConfig :=
  {| qos := x00; retain := false; autoreconnect := false |}.

Definition tcp_addr : Addressable :=
  {| Protocol := "tcp"; Address := "1.2.3.4"; Port := 1883; Path := "";
     Publisher := "exporter"; User := "edgex"; AddrPassword := "secret";
     Topic := "readings" |}.

Definition ssl_addr : Addressable :=
  {| Protocol := "SSL"; Address := "broker.local"; Port := 8883; Path := "/mqtt";
     Publisher := "exporter"; User := "edgex"; AddrPassword := "secret";
     Topic := "readings" |}.

(** A file system without the certificate, and one that has it. *)
Definition no_cert : string -> string -> Certificate + error :=
  fun _ _ => inr "open cert.pem: no such file or directory".
Definition some_cert : string -> string -> Certificate + error :=
  fun _ _ => inl [x30; x82].

(** A heap holding one configuration, at location 0. *)
Definition one_config : gmap nat MqttConfig := (NewMqttConfig ∅).2.

Definition sender0 : MQTTSender :=
  {| Transforms.client := NewClient (AddBroker NewClientOptions "tcp://1.2.3.4:1883");
     topic := "readings"; opts := defaults |}.

Definition config0 : ConfigurationStruct :=
  {| Binding := {| BindingType := "messagebus"; SubscribeTopic := "events";
                   PublishTopic := "processed" |};
     MessageBus := "zero://localhost:5563" |}.

Definition ctx0 : Context :=
  {| Appcontext.Configuration := config0; CtxCorrelationID := "abc-123";
     OutputData := None; EventID := "e1"; EventChecksum := "" |}.

(** Broker answers: everything works but the event store; the broker
    cannot be reached; the broker refuses the message. *)
Definition store_down : Env :=
  {| connectErr := None; publishErr := None;
     markErr := Some "core-data unreachable" |}.
Definition broker_down : Env :=
  {| connectErr := Some "connection refused"; publishErr := None;
     markErr := None |}.
Definition publish_refused : Env :=
  {| connectErr := None; publishErr := Some "not authorized";
     markErr := None |}.

Definition trigger0 : Trigger :=
  {| Configuration := config0; Messagebus.client := None; topics := [] |}.

Definition arrival0 : MessageEnvelope :=
  {| CorrelationID := "abc-123"; Payload := Some [x7b; x7d];
     ContentType := ContentTypeJSON |}.

End Samples.

(** ** Package common: locating and loading the configuration file *)
Module ConfigLoader.
Import Go.

(** [len(s)] and the slice expression [s[lo:hi]] on a Go string: a
    slice outside [0 <= lo <= hi <= len(s)] panics. *)
Definition len (s : string) : Z := Z.of_nat (String.length s).

Definition slice (s : string) (lo hi : Z) : outcome string :=
  if ((0 <=? lo) && (lo <=? hi) && (hi <=? len s))%Z
  then Return (substring (Z.to_nat lo) (Z.to_nat (hi - lo)) s)
  else Panic.

Definition configDirectory : string := "./res".
Definition configDirEnv : string := "EDGEX_CONF_DIR".

(** The calls that leave the process or change the configuration
    object. *)
Inductive io_event : Type :=
| ReadFile (fileName : string)
| Unmarshal (contents : list byte).

Definition is_read (e : io_event) : bool :=
  match e with ReadFile _ => true | Unmarshal _ => false end.

Definition read_name (e : io_event) : option string :=
  match e with ReadFile fileName => Some fileName | Unmarshal _ => None end.

Section Loader.

(** [internal.ConfigFileName], declared outside the files at hand. *)
Variable ConfigFileName : string.

(** The configuration object behind the [interface{}] argument. *)
Variable C : Type.

(** The surroundings of a call: [os.Getenv] (the empty string for an
    unset variable), [ioutil.ReadFile], [toml.Unmarshal] (it writes
    into the object it is given and may fail) and [filepath.Glob] (its
    error is dropped by the caller, the matches are then nil). *)
Record Sys : Type := {
  getenv : string -> string;
  readFile : string -> list byte + error;
  unmarshal : list byte -> C -> C * option error;
  glob : string -> list string
}.

Variable sys : Sys.

Definition determinePath (configDir : string) : string :=
  let path := configDir in
  let path :=
    if (len path =? 0)%Z then (* No cmd line param passed *)
      getenv sys configDirEnv
    else path in
  let path :=
    if (len path =? 0)%Z then (* Var is not set *)
      configDirectory
    else path in
  path.

(** The file a call of [LoadFromFile] names. *)
Definition fileName_of (profile configDir : string) : string :=
  let path := determinePath configDir in
  let fileName := path ++ "/" ++ ConfigFileName in (* default profile *)
  if (len profile >? 0)%Z
  then path ++ "/" ++ profile ++ "/" ++ ConfigFileName
  else fileName.

(** LoadFromFile loads .toml file for configuration.  The result is
    the returned error, the configuration object after the call and the
    trace of the call. *)
Definition LoadFromFile (profile configDir : string) (configuration : C)
    : option error * C * list io_event :=
  let fileName := fileName_of profile configDir in
  match readFile sys fileName with
  | inr err =>
      (Some ("could not load configuration file (" ++ fileName ++ "): " ++ err),
       configuration, [ReadFile fileName])
  | inl contents =>
      (* Decode the configuration from TOML *)
      let (configuration', err) := unmarshal sys contents configuration in
      match err with
      | Some e =>
          (Some ("unable to parse configuration file (" ++ fileName ++ "): " ++ e),
           configuration', [ReadFile fileName; Unmarshal contents])
      | None =>
          (None, configuration', [ReadFile fileName; Unmarshal contents])
      end
  end.

(** Lines 176 to 180 of [VerifyTomlFiles]: the profile of a matched
    file. *)
Definition profile_of (f : string) : outcome string :=
  match slice f (len "res") (len f - len "/configuration.toml") with
  | Panic => Panic
  | Return profile =>
      if negb (profile =? "") then
        (* remove the dash *)
        slice profile 1 (len profile)
      else Return profile
  end.

(** The [for _, f := range files] loop. *)
Fixpoint load_all (files : list string) (configDir : string) (configuration : C)
    : outcome (option error) * C * list io_event :=
  match files with
  | [] => (Return None, configuration, [])
  | f :: rest =>
      match profile_of f with
      | Panic => (Panic, configuration, [])
      | Return profile =>
          let '(err, configuration', tr) :=
            LoadFromFile profile configDir configuration in
          match err with
          | Some e =>
              (Return (Some ("Error loading toml file " ++ profile ++ ": " ++ e)),
               configuration', tr)
          | None =>
              let '(r, configuration'', tr') :=
                load_all rest configDir configuration' in
              (r, configuration'', (tr ++ tr')%list)
          end
      end
  end.

(** VerifyTomlFiles Verifies toml file exists and loads it. *)
Definition VerifyTomlFiles (configuration : C) (configDir : string)
    : outcome (option error) * C * list io_event :=
  let files := glob sys "res/*/*.toml" in
  let files2 := glob sys "res/configuration.toml" in
  let files := (files ++ files2)%list in
  if (Z.of_nat (length files) =? 0)%Z then
    (Return (Some "There are no toml files"), configuration, [])
  else
    load_all files configDir configuration.

End Loader.

Arguments getenv {C} _ _.
Arguments readFile {C} _ _.
Arguments unmarshal {C} _ _ _.
Arguments glob {C} _ _.

End ConfigLoader.

(** ** examples/simple-filter-xml: the last function of the pipeline *)
Module SimpleFilterXml.
Import Go Effects Common Appcontext.

(** What a call leaves behind: the lines written to standard output,
    the calls to the logging client and the context. *)
Record After : Type := {
  printed : list string;
  logged : list event;
  context : Context
}.

Definition printXMLToConsole (edgexcontext : Context) (params : list iface)
    : outcome (bool * iface) * After :=
  match params with
  | [] =>
      (* We didn't receive a result *)
      (Return (false, INil),
       {| printed := []; logged := []; context := edgexcontext |})
  | IString xml :: _ =>
      (Return (false, INil),
       {| printed := [xml];
          (* Leverage the built in logging service in EdgeX *)
          logged := [Log DEBUG "XML printed to console" []];
          context := Complete edgexcontext (Some (list_byte_of_string xml)) |})
  | _ :: _ =>
      (* params[0].(string) on another type *)
      (Panic, {| printed := []; logged := []; context := edgexcontext |})
  end.

End SimpleFilterXml.

(** ** More sample values *)
Module Samples2.
Import Go ConfigLoader.

(** A configuration object as the list of the files decoded into it. *)
Definition decoded : Type := list (list byte).

(** A file system with one profile, "docker": its file decodes, the
    top-level file is missing. *)
Definition docker_only : Sys decoded :=
  {| getenv := fun _ => "";
     readFile := fun name =>
       if (name =? "./res/docker/configuration.toml")%string
       then inl [x5b; x5d] else inr "no such file or directory";
     unmarshal := fun contents conf => ((conf ++ [contents])%list, None);
     glob := fun pattern =>
       if (pattern =? "res/*/*.toml")%string
       then ["res/docker/configuration.toml"]
       else ["res/configuration.toml"] |}.

(** A file system where a short file name matches the pattern. *)
Definition short_name : Sys decoded :=
  {| getenv := fun _ => "";
     readFile := fun _ => inl [];
     unmarshal := fun contents conf => ((conf ++ [contents])%list, None);
     glob := fun pattern =>
       if (pattern =? "res/*/*.toml")%string then ["res/a/b.toml"] else [] |}.

End Samples2.

(** ** Reading traces, continued *)
Module Reading.
Import Go Effects Common Appcontext Runtime Messagebus ConfigLoader.

Definition is_subscribe (e : event) : bool :=
  match e with BusSubscribe _ => true | _ => false end.

(** The pipeline runs and bus publishes of a trace, in order. *)
Definition bus_step (e : event) : option event :=
  match e with
  | RunPipeline _ | BusPublish _ _ => Some e
  | _ => None
  end.

(** The pipeline run and the bus publish an input calls for. *)
Definition steps_for (trigger : Trigger) (r : received) : list event :=
  match r with
  | FromMessageErrors _ => []
  | FromMessages msgs env =>
      RunPipeline msgs ::
      match output_of trigger msgs env with
      | Some output =>
          [BusPublish {| CorrelationID := CorrelationID msgs;
                         Payload := Some output;
                         ContentType := ContentTypeJSON |}
             (PublishTopic (Binding (Configuration trigger)))]
      | None => []
      end
  end.

(** The files [VerifyTomlFiles] sets out to read for a list of matches:
    one per match whose profile can be cut out. *)
Definition planned_reads {C : Type} (ConfigFileName : string) (sys : Sys C)
    (files : list string) (configDir : string) : list string :=
  omap (fun f => match profile_of f with
                 | Return profile =>
                     Some (fileName_of ConfigFileName C sys profile configDir)
                 | Panic => None
                 end) files.

(** Decoding again, in order, what a trace says was decoded. *)
Definition replay {C : Type} (sys : Sys C) (tr : list io_event) (configuration : C) : C :=
  fold_left (fun conf e =>
               match e with
               | Unmarshal contents => (unmarshal sys contents conf).1
               | ReadFile _ => conf
               end) tr configuration.

End Reading.

(** * Properties of the export sender *)
Module SenderSpec.
Import Go Effects Common Appcontext Transforms.

(** Unfolds one call of [MQTTSend] down to its result and trace. *)
Ltac unfold_send :=
  cbv [run_send MQTTSend send_data IsConnected Connect Publish MarkAsPushed
       LoggingClient_Info LoggingClient_Error LoggingClient_Trace
       emit set_connected get_connected Wait Error tokenErr
       mbind mret M_bind M_ret is_nil negb andb
       connectErr publishErr markErr connected trace].

(** Counting over a trace that is spelled out. *)
Ltac count_trace := cbv [count List.filter is_publish is_mark is_connect length app].

Lemma send_without_params env isConnected sender ctx :
  run_send env isConnected sender ctx [] =
  ((false, IError "No Data Received"),
   {| connected := isConnected; trace := [] |}).
Proof. reflexivity. Qed.

(** A failed connect ends the call right after the connect attempt. *)
Lemma send_connect_failed env sender ctx param0 rest e :
  connectErr env = Some e ->
  run_send env false sender ctx (param0 :: rest) =
  ((false, IError ("Could not connect to mqtt server, drop event. Error: " ++ e)),
   {| connected := false; trace := connect_trace env false |}).
Proof.
  destruct env as [ce pe me]; simpl; intros ->.
  unfold_send. reflexivity.
Qed.

(** A parameter that is no string ends the call after the connection
    step. *)
Lemma send_not_a_string env isConnected sender ctx param0 rest :
  is_string param0 = false ->
  passes_connect env isConnected = true ->
  run_send env isConnected sender ctx (param0 :: rest) =
  ((false, IError "Unexpected type received"),
   {| connected := true; trace := connect_trace env isConnected |}).
Proof.
  destruct env as [[ce|] pe me], isConnected, param0;
    simpl; try discriminate; intros _ _; reflexivity.
Qed.

(** A string parameter is published once the connection step is passed. *)
Lemma send_string env isConnected sender ctx data rest :
  passes_connect env isConnected = true ->
  run_send env isConnected sender ctx (IString data :: rest) =
  (match publishErr env with
   | Some e => (false, IError e)
   | None => (true, INil)
   end,
   {| connected := true;
      trace :=
        connect_trace env isConnected
        ++ [ClientPublish (topic sender) (qos (opts sender))
              (retain (opts sender)) (list_byte_of_string data)]
        ++ match publishErr env with
           | Some _ => []
           | None =>
               [Log INFO "Sent data to MQTT Broker" [];
                Log TRACE "Data exported"
                  ["Transport"; "MQTT"; CorrelationHeader; CtxCorrelationID ctx];
                CtxMarkAsPushed]
               ++ match markErr env with
                  | Some e => [Log ERROR e []]
                  | None => []
                  end
           end |}).
Proof.
  destruct env as [[ce|] [pe|] [me|]], isConnected;
    simpl; try discriminate; intros _; reflexivity.
Qed.

Lemma count_app p (l1 l2 : list event) :
  count p (l1 ++ l2) = count p l1 + count p l2.
Proof. unfold count. now rewrite List.filter_app, List.length_app. Qed.

(** The connection step never publishes and never marks. *)
Lemma connect_trace_quiet env isConnected :
  count is_publish (connect_trace env isConnected) = 0
  /\ count is_mark (connect_trace env isConnected) = 0.
Proof.
  unfold connect_trace. destruct isConnected, (is_nil (connectErr env)); now split.
Qed.

(** C1: for a string input whose publish is attempted, a publish token
    without error makes [MQTTSend] call [MarkAsPushed] exactly once and
    return [(true, nil)], whatever [MarkAsPushed] answers; a publish
    token with an error makes it call [MarkAsPushed] zero times and
    return [(false, that error)]. *)
Theorem send_marks_pushed_after_publish env isConnected sender ctx data rest res w :
  run_send env isConnected sender ctx (IString data :: rest) = (res, w) ->
  1 <= count is_publish (trace w) ->
  match publishErr env with
  | None => count is_mark (trace w) = 1 /\ res = (true, INil)
  | Some e => count is_mark (trace w) = 0 /\ res = (false, IError e)
  end.
Proof.
  intros Hrun Hpub.
  destruct (passes_connect env isConnected) eqn:Hpass.
  - rewrite (send_string _ _ _ _ _ _ Hpass) in Hrun.
    injection Hrun as <- <-. cbn [trace].
    destruct (publishErr env) as [e|];
      rewrite !count_app, (proj2 (connect_trace_quiet env isConnected));
      [now split|].
    split; [|reflexivity].
    destruct (markErr env); reflexivity.
  - exfalso.
    destruct isConnected; [discriminate|].
    destruct (connectErr env) as [e|] eqn:Hce; [|now unfold passes_connect in Hpass; rewrite Hce in Hpass].
    rewrite (send_connect_failed _ _ _ _ _ _ Hce) in Hrun.
    injection Hrun as <- <-.
    change (1 <= count is_publish (connect_trace env false)) in Hpub.
    rewrite (proj1 (connect_trace_quiet env false)) in Hpub. lia.
Qed.

(** The store fails after a successful publish: one mark, [(true, nil)]. *)
Lemma send_marks_pushed_after_publish_witness :
  count is_mark
    (trace (run_send Samples.store_down false Samples.sender0 Samples.ctx0
              [IString "reading"]).2) = 1
  /\ (run_send Samples.store_down false Samples.sender0 Samples.ctx0
        [IString "reading"]).1 = (true, INil).
Proof.
  apply (send_marks_pushed_after_publish Samples.store_down false
           Samples.sender0 Samples.ctx0 "reading" [] _ _ eq_refl).
  vm_compute. lia.
Defined.

(** C3: on a client that reports not-connected, a call with at least
    one input makes exactly one connect attempt and nothing is published
    before it; when the connect token carries an error nothing is
    published at all and the call returns false with an error built
    from the connect error. *)
Theorem send_connects_before_publish env sender ctx param0 rest :
  let r := run_send env false sender ctx (param0 :: rest) in
  (exists pre post,
      trace r.2 = (pre ++ ClientConnect :: post)%list
      /\ count is_publish pre = 0 /\ count is_connect pre = 0)
  /\ match connectErr env with
     | Some e =>
         count is_publish (trace r.2) = 0
         /\ r.1 = (false,
                   IError ("Could not connect to mqtt server, drop event. Error: "
                           ++ e))
     | None => count is_connect (trace r.2) = 1
     end.
Proof.
  cbv zeta.
  destruct (connectErr env) as [e|] eqn:Hce.
  - rewrite (send_connect_failed _ _ _ _ _ _ Hce). cbn [fst snd trace].
    unfold connect_trace; rewrite Hce; cbn [is_nil].
    split; [|now split].
    now exists [ClientIsConnected; Log INFO "Connecting to mqtt server" []], [].
  - assert (Hpass : passes_connect env false = true)
      by (unfold passes_connect; now rewrite Hce).
    destruct (is_string param0) eqn:Hs.
    + destruct param0; try discriminate.
      rewrite (send_string _ _ _ _ _ _ Hpass). cbn [fst snd trace].
      unfold connect_trace; rewrite Hce; cbn [is_nil]. split.
      * eexists [ClientIsConnected; Log INFO "Connecting to mqtt server" []], _.
        split; [reflexivity|now split].
      * destruct (publishErr env), (markErr env); reflexivity.
    + rewrite (send_not_a_string _ _ _ _ _ _ Hs Hpass). cbn [fst snd trace].
      unfold connect_trace; rewrite Hce; cbn [is_nil]. split; [|reflexivity].
      now exists [ClientIsConnected; Log INFO "Connecting to mqtt server" []],
                 [Log INFO "Connected to mqtt server" []].
Qed.

(** C4: a call with zero input values returns false with the error
    "No Data Received" (the spec's "no data received", up to letter
    case) and does not touch the broker client: the trace of the call is
    empty and the connection state is as before. *)
Theorem send_rejects_missing_input env isConnected sender ctx :
  let r := run_send env isConnected sender ctx [] in
  r.1 = (false, IError (errors_New "No Data Received"))
  /\ ToLower "No Data Received" = "no data received"
  /\ trace r.2 = []
  /\ count is_connect (trace r.2) = 0
  /\ connected r.2 = isConnected.
Proof. rewrite send_without_params. repeat split. Qed.

(** C5, as the code has it: the sender takes strings only.  A first
    input that is not a string (a byte slice included) is never
    published; the call returns false with "Unexpected type received"
    once the connection step is passed, and with the connect error
    otherwise.  A string input is not turned away for its type: it is
    published exactly when the connection step is passed. *)
Theorem send_accepts_strings_only env isConnected sender ctx param0 rest :
  let r := run_send env isConnected sender ctx (param0 :: rest) in
  if is_string param0 then
    count is_publish (trace r.2) = (if passes_connect env isConnected then 1 else 0)
  else
    count is_publish (trace r.2) = 0
    /\ r.1 = (false,
              IError (if passes_connect env isConnected
                      then "Unexpected type received"
                      else "Could not connect to mqtt server, drop event. Error: "
                           ++ default "" (connectErr env))).
Proof.
  cbv zeta.
  destruct (passes_connect env isConnected) eqn:Hpass.
  - destruct (is_string param0) eqn:Hs.
    + destruct param0; try discriminate.
      rewrite (send_string _ _ _ _ _ _ Hpass). cbn [fst snd trace].
      rewrite !count_app, (proj1 (connect_trace_quiet env isConnected)).
      destruct (publishErr env), (markErr env); reflexivity.
    + rewrite (send_not_a_string _ _ _ _ _ _ Hs Hpass). cbn [fst snd trace].
      now rewrite (proj1 (connect_trace_quiet env isConnected)).
  - destruct isConnected; [discriminate|].
    destruct (connectErr env) as [e|] eqn:Hce;
      [|now unfold passes_connect in Hpass; rewrite Hce in Hpass].
    rewrite (send_connect_failed _ _ _ _ _ _ Hce). cbn [fst snd trace default].
    rewrite (proj1 (connect_trace_quiet env false)).
    now destruct (is_string param0).
Qed.

(** C5 as stated fails: a byte slice on a connected client is turned
    away with "Unexpected type received", nothing is published. *)
Lemma send_rejects_byte_slice :
  run_send Samples.store_down true Samples.sender0 Samples.ctx0
    [IBytes [x68; x69]]
  = ((false, IError "Unexpected type received"),
     {| connected := true; trace := [ClientIsConnected] |}).
Proof. reflexivity. Qed.

(** Two calls on one sender: the broker is down for the first, which
    stops after its connect attempt; the second connects again from
    scratch and publishes. *)
Example send_retries_connect :
  let first := MQTTSend Samples.broker_down Samples.sender0 Samples.ctx0
                 [IString "r1"] {| connected := false; trace := [] |} in
  let second := MQTTSend Samples.store_down Samples.sender0 Samples.ctx0
                  [IString "r2"] first.2 in
  first.1 = (false, IError "Could not connect to mqtt server, drop event. Error: connection refused")
  /\ second.1 = (true, INil)
  /\ count is_connect (trace second.2) = 2
  /\ count is_publish (trace second.2) = 1
  /\ connected second.2 = true.
Proof. repeat split. Qed.

(** A refused publish: no mark, the error of the broker comes back. *)
Example send_publish_refused :
  run_send Samples.publish_refused true Samples.sender0 Samples.ctx0
    [IString "reading"]
  = ((false, IError "not authorized"),
     {| connected := true;
        trace := [ClientIsConnected;
                  ClientPublish "readings" x00 false
                    (list_byte_of_string "reading")] |}).
Proof. reflexivity. Qed.

(** The message of the type guard begins, in lower case, with the
    words "unexpected type". *)
Example unexpected_type_text :
  HasPrefix (ToLower "Unexpected type received") "unexpected type" = true.
Proof. reflexivity. Qed.

(** ** The constructor *)

(** C7, as the code has it: for a non-nil configuration, a TLS
    protocol (tcps, ssl or tls after lowercasing) whose key pair fails
    to load gives no sender: the constructor logs the failure and
    returns nil (with a nil logging client the call that logs panics,
    and there is no sender either).  For any other protocol no key pair
    is loaded and a sender is returned. *)
Theorem constructor_aborts_without_certificate
    (load : string -> string -> Certificate + error)
    (h : gmap nat MqttConfig) logging addr certFile key (l : nat) cfg :
  h !! l = Some cfg ->
  let r := NewMQTTSender load h logging addr certFile key (Some l) in
  if tls_protocol (ToLower (Protocol addr)) then
    match load certFile key with
    | inr _ =>
        (forall sender, r.1 <> Return (Some sender))
        /\ match logging with
           | Some _ =>
               r = (Return None,
                    [LoadKeyPair certFile key;
                     Log ERROR "Failed loading x509 data" []])
           | None => r = (Panic, [LoadKeyPair certFile key])
           end
    | inl _ =>
        count is_load r.2 = 1 /\ exists sender, r.1 = Return (Some sender)
    end
  else
    count is_load r.2 = 0 /\ exists sender, r.1 = Return (Some sender).
Proof.
  intros Hl. unfold NewMQTTSender. cbn [deref]. rewrite Hl.
  destruct (tls_protocol (ToLower (Protocol addr))).
  - destruct (load certFile key) as [cert|err].
    + split; [reflexivity|]. eexists. reflexivity.
    + destruct logging as [lg|]; (split; [discriminate|reflexivity]).
  - split; [reflexivity|]. eexists. reflexivity.
Qed.

(** "SSL" without a readable certificate gives nil; "tcp" gives a sender
    and loads nothing. *)
Lemma constructor_aborts_without_certificate_witness :
  ((forall sender,
       (NewMQTTSender Samples.no_cert Samples.one_config (Some Logger)
          Samples.ssl_addr "cert.pem" "key.pem" (Some 0)).1
       <> Return (Some sender))
   /\ NewMQTTSender Samples.no_cert Samples.one_config (Some Logger)
        Samples.ssl_addr "cert.pem" "key.pem" (Some 0)
      = (Return None,
         [LoadKeyPair "cert.pem" "key.pem";
          Log ERROR "Failed loading x509 data" []]))
  /\ (count is_load
        (NewMQTTSender Samples.no_cert Samples.one_config (Some Logger)
           Samples.tcp_addr "cert.pem" "key.pem" (Some 0)).2 = 0
      /\ exists sender,
          (NewMQTTSender Samples.no_cert Samples.one_config (Some Logger)
             Samples.tcp_addr "cert.pem" "key.pem" (Some 0)).1
          = Return (Some sender)).
Proof.
  split.
  - exact (constructor_aborts_without_certificate Samples.no_cert
             Samples.one_config (Some Logger) Samples.ssl_addr
             "cert.pem" "key.pem" 0 Samples.defaults eq_refl).
  - exact (constructor_aborts_without_certificate Samples.no_cert
             Samples.one_config (Some Logger) Samples.tcp_addr
             "cert.pem" "key.pem" 0 Samples.defaults eq_refl).
Defined.

(** With the certificate in place "SSL" gives a sender whose client
    skips the verification of the broker's certificate. *)
Example constructor_with_certificate :
  exists sender,
    NewMQTTSender Samples.some_cert Samples.one_config (Some Logger) Samples.ssl_addr
      "cert.pem" "key.pem" (Some 0)
    = (Return (Some sender), [LoadKeyPair "cert.pem" "key.pem"])
    /\ Servers (options (client sender)) = ["ssl://broker.local:8883/mqtt"]
    /\ (InsecureSkipVerify <$> TLSConfig (options (client sender))) = Some true.
Proof. eexists. repeat split. Qed.

(** C7 as stated fails: for the protocol "tcp" and a nil configuration
    the constructor panics on [config.autoreconnect]; no sender is
    produced although no TLS is involved. *)
Example constructor_nil_config :
  NewMQTTSender Samples.no_cert Samples.one_config (Some Logger) Samples.tcp_addr
    "cert.pem" "key.pem" None
  = (Panic, []).
Proof. reflexivity. Qed.

(** C8: the client of a constructed sender has exactly one broker, the
    string lowercase(protocol) "://" address ":" port path, the port in
    decimal; for tcp, 1.2.3.4, 1883 and the empty path this is
    "tcp://1.2.3.4:1883". *)
Theorem constructor_endpoint
    (load : string -> string -> Certificate + error)
    (h : gmap nat MqttConfig) logging addr certFile key config sender tr :
  NewMQTTSender load h logging addr certFile key config = (Return (Some sender), tr) ->
  Servers (options (client sender)) =
    [ToLower (Protocol addr) ++ "://" ++ Address addr ++ ":"
       ++ Itoa (Port addr) ++ Path addr]
  /\ (Protocol addr = "tcp" -> Address addr = "1.2.3.4" ->
      Port addr = 1883%Z -> Path addr = "" ->
      Servers (options (client sender)) = ["tcp://1.2.3.4:1883"]).
Proof.
  intros Hnew.
  assert (Hs : Servers (options (client sender)) =
               [ToLower (Protocol addr) ++ "://" ++ Address addr ++ ":"
                  ++ Itoa (Port addr) ++ Path addr]).
  { unfold NewMQTTSender in Hnew.
    destruct (deref h config) as [cfg|]; [|discriminate].
    destruct (tls_protocol (ToLower (Protocol addr))).
    - destruct (load certFile key) as [cert|err];
        [|destruct logging; discriminate].
      injection Hnew as <- _. reflexivity.
    - injection Hnew as <- _. reflexivity. }
  split; [exact Hs|].
  intros Hp Ha Hport Hpath. rewrite Hs, Hp, Ha, Hport, Hpath. reflexivity.
Qed.

Lemma constructor_endpoint_witness :
  exists sender,
    (NewMQTTSender Samples.no_cert Samples.one_config (Some Logger) Samples.tcp_addr
       "cert.pem" "key.pem" (Some 0)).1 = Return (Some sender)
    /\ Servers (options (client sender)) = ["tcp://1.2.3.4:1883"].
Proof.
  eexists. split; [reflexivity|].
  exact (proj2 (constructor_endpoint Samples.no_cert Samples.one_config
                  (Some Logger) Samples.tcp_addr "cert.pem" "key.pem" (Some 0) _ _ eq_refl)
           eq_refl eq_refl eq_refl eq_refl).
Defined.

(** ** The configuration setters *)

(** [NewMqttConfig] allocates the default configuration. *)
Lemma NewMqttConfig_lookup (h : gmap nat MqttConfig) :
  (NewMqttConfig h).2 !! (NewMqttConfig h).1
  = Some {| qos := x00; retain := false; autoreconnect := false |}.
Proof.
  unfold NewMqttConfig. cbn [fst snd].
  rewrite !lookup_alter_eq, lookup_insert_eq. reflexivity.
Qed.

(** A setter call returns with the heap it was given. *)
Lemma exec_setter_heap (h : gmap nat MqttConfig) (p : nat) c call :
  h !! p = Some c ->
  exists frame, exec_setter h (Some p) call = Return (h, frame).
Proof.
  intros Hp. destruct call; unfold exec_setter, call_by_value, deref;
    rewrite Hp; eexists; reflexivity.
Qed.

Lemma exec_setters_heap (h : gmap nat MqttConfig) (p : nat) c calls :
  h !! p = Some c -> exec_setters h (Some p) calls = Return h.
Proof.
  intros Hp. induction calls as [|call calls IH]; [reflexivity|].
  cbn [exec_setters].
  destruct (exec_setter_heap h p c call Hp) as [frame ->]. exact IH.
Qed.

(** C10: a setter called on a configuration changes the copy in its own
    frame and nothing else: after [SetQos], [SetRetain] or
    [SetAutoreconnect], alone or in any sequence, the heap is the one
    before the call, so the configuration still has all its fields.  A
    sender constructed from a configuration made by [NewMqttConfig]
    therefore has qos 0, retain false and autoreconnect false (in its
    options and in its client) whatever setters were called in
    between. *)
Theorem setters_change_nothing
    (load : string -> string -> Certificate + error)
    (h : gmap nat MqttConfig) (p : nat) (c : MqttConfig)
    (calls : list setter_call) :
  h !! p = Some c ->
  (forall v, call_by_value SetQos h (Some p) v
             = Return (h, {| qos := v; retain := retain c;
                             autoreconnect := autoreconnect c |}))
  /\ (forall v, call_by_value SetRetain h (Some p) v
                = Return (h, {| qos := qos c; retain := v;
                                autoreconnect := autoreconnect c |}))
  /\ (forall v, call_by_value SetAutoreconnect h (Some p) v
                = Return (h, {| qos := qos c; retain := retain c;
                                autoreconnect := v |}))
  /\ exec_setters h (Some p) calls = Return h
  /\ (forall h0 logging addr certFile key,
        let q := (NewMqttConfig h0).1 in
        let h1 := (NewMqttConfig h0).2 in
        exec_setters h1 (Some q) calls = Return h1
        /\ match (NewMQTTSender load h1 logging addr certFile key (Some q)).1 with
           | Return (Some sender) =>
               opts sender = {| qos := x00; retain := false; autoreconnect := false |}
               /\ AutoReconnect (options (client sender)) = false
           | _ => True
           end).
Proof.
  intros Hp.
  split; [|split; [|split; [|split]]].
  - intros v. unfold call_by_value, deref. now rewrite Hp.
  - intros v. unfold call_by_value, deref. now rewrite Hp.
  - intros v. unfold call_by_value, deref. now rewrite Hp.
  - exact (exec_setters_heap h p c calls Hp).
  - intros h0 logging addr certFile key q h1.
    pose proof (NewMqttConfig_lookup h0) as Hq. fold q h1 in Hq.
    split; [exact (exec_setters_heap h1 q _ calls Hq)|].
    unfold NewMQTTSender. cbn [deref]. rewrite Hq.
    destruct (tls_protocol (ToLower (Protocol addr))).
    + destruct (load certFile key) as [cert|err]; [now split|].
      now destruct logging.
    + now split.
Qed.

(** On the heap with one fresh configuration: [SetQos 2], [SetRetain
    true] and [SetAutoreconnect true] leave it as it was. *)
Lemma setters_change_nothing_witness :
  exec_setters Samples.one_config (Some 0)
    [CallSetQos x02; CallSetRetain true; CallSetAutoreconnect true]
  = Return Samples.one_config.
Proof.
  exact (proj1 (proj2 (proj2 (proj2
    (setters_change_nothing Samples.no_cert Samples.one_config 0
       Samples.defaults
       [CallSetQos x02; CallSetRetain true; CallSetAutoreconnect true]
       eq_refl))))).
Defined.

(** A configuration is made, all three setters are called on it, a
    sender is constructed from it: the sender has the defaults. *)
Example sender_after_setters :
  let q := (NewMqttConfig ∅).1 in
  let h1 := (NewMqttConfig ∅).2 in
  exec_setters h1 (Some q)
    [CallSetQos x02; CallSetRetain true; CallSetAutoreconnect true] = Return h1
  /\ exists sender,
      NewMQTTSender Samples.no_cert h1 (Some Logger) Samples.tcp_addr "" "" (Some q)
      = (Return (Some sender), [])
      /\ opts sender = {| qos := x00; retain := false; autoreconnect := false |}
      /\ AutoReconnect (options (client sender)) = false.
Proof. split; [reflexivity|]. eexists. repeat split. Qed.

End SenderSpec.

(** * Properties of the bus-subscription trigger *)
Module TriggerSpec.
Import Go Effects Common Appcontext Runtime Messagebus.

(** [Initialize] returns the error of [NewMessageClient] and no other. *)
Lemma Initialize_returned env trigger :
  returned (Initialize env trigger) = newClientErr env.
Proof. unfold Initialize. now destruct (newClientErr env). Qed.

(** C2, on the code: when the client is created and [Subscribe] then
    returns an error, [Initialize] returns nil and starts the worker;
    the error of [Subscribe] reaches neither the caller nor the log. *)
Theorem initialize_drops_subscribe_error trigger e :
  let r := Initialize {| newClientErr := None; subscribeErr := Some e |} trigger in
  returned r = None
  /\ workerStarted r = true
  /\ count is_error_log (initTrace r) = 0.
Proof. repeat split. Qed.

(** The pipeline leaves the correlation id of the context alone. *)
Lemma ProcessEvent_correlation ops ctx msgs :
  CtxCorrelationID (ProcessEvent ops ctx msgs) = CtxCorrelationID ctx.
Proof.
  unfold ProcessEvent. revert ctx.
  induction ops as [|op ops IH]; intros ctx; [reflexivity|].
  cbn [fold_left]. rewrite IH. now destruct op.
Qed.

(** The output slot holds what the last [Complete] of the run gave. *)
Lemma ProcessEvent_output ops ctx msgs :
  OutputData (ProcessEvent ops ctx msgs)
  = default (OutputData ctx) (last (omap completes ops)).
Proof.
  unfold ProcessEvent. revert ctx.
  induction ops as [|op ops IH]; intros ctx; [reflexivity|].
  cbn [fold_left]. rewrite IH.
  destruct op as [output|]; [|reflexivity].
  change (omap completes (OpComplete output :: ops))
    with (output :: omap completes ops).
  rewrite last_cons. cbn [apply_op Complete OutputData].
  now destruct (last (omap completes ops)).
Qed.

(** The bus publishes among the events of one arrival. *)
Lemma on_message_publishes trigger msgs env :
  List.filter is_bus_publish (on_message trigger msgs env)
  = match output_of trigger msgs env with
    | Some output =>
        [BusPublish {| CorrelationID := CorrelationID msgs;
                       Payload := Some output;
                       ContentType := ContentTypeJSON |}
           (PublishTopic (Binding (Configuration trigger)))]
    | None => []
    end.
Proof.
  unfold on_message, output_of.
  rewrite ProcessEvent_correlation.
  destruct (OutputData _) as [output|]; [|reflexivity].
  destruct (busPublishErr env); reflexivity.
Qed.

(** C6: while an arrival is handled, the worker publishes exactly one
    envelope when the output slot is set after the pipeline run (the
    last [Complete] of the run gave a non-nil payload), to the
    configured publish topic, with the correlation id of the arrival,
    the output as payload and the JSON content type; it publishes
    nothing when the slot is not set.  An arrival with correlation id
    "abc-123" and an output gives an envelope with that id. *)
Theorem arrival_publishes_its_output trigger msgs env :
  output_of trigger msgs env = default None (last (omap completes (stageOps env)))
  /\ List.filter is_bus_publish (on_message trigger msgs env)
     = match output_of trigger msgs env with
       | Some output =>
           [BusPublish {| CorrelationID := CorrelationID msgs;
                          Payload := Some output;
                          ContentType := ContentTypeJSON |}
              (PublishTopic (Binding (Configuration trigger)))]
       | None => []
       end
  /\ (CorrelationID msgs = "abc-123" ->
      forall output, output_of trigger msgs env = Some output ->
      exists envelope,
        List.filter is_bus_publish (on_message trigger msgs env)
        = [BusPublish envelope (PublishTopic (Binding (Configuration trigger)))]
        /\ CorrelationID envelope = "abc-123"
        /\ Payload envelope = Some output).
Proof.
  split; [|split].
  - unfold output_of. now rewrite ProcessEvent_output.
  - apply on_message_publishes.
  - intros Hid output Hout. rewrite on_message_publishes, Hout.
    eexists. split; [reflexivity|]. split; [exact Hid|reflexivity].
Qed.

(** The arrival "abc-123" whose last stage completes with "ok". *)
Lemma arrival_publishes_its_output_witness :
  exists envelope,
    List.filter is_bus_publish
      (on_message Samples.trigger0 Samples.arrival0
         {| stageOps := [OpMarkAsPushed; OpComplete (Some [x6f; x6b])];
            busPublishErr := None |})
    = [BusPublish envelope "processed"]
    /\ CorrelationID envelope = "abc-123"
    /\ Payload envelope = Some [x6f; x6b].
Proof.
  exact (proj2 (proj2 (arrival_publishes_its_output Samples.trigger0
           Samples.arrival0
           {| stageOps := [OpMarkAsPushed; OpComplete (Some [x6f; x6b])];
              busPublishErr := None |}))
         eq_refl [x6f; x6b] eq_refl).
Defined.

(** ** The worker loop *)

Lemma iteration_keeps_flag trigger receiveMessage r :
  (iteration trigger receiveMessage r).2 = receiveMessage.
Proof. now destruct r. Qed.

(** With a topic in place the worker serves every input; its trace is
    the traces of the single passes, one after the other. *)
Lemma run_worker_trace trigger inputs :
  topics trigger <> [] ->
  run_worker trigger inputs
  = (flat_map (fun r => (iteration trigger true r).1) inputs, Waiting, []).
Proof.
  intros Htopics. unfold run_worker.
  induction inputs as [|r inputs IH]; cbn [worker flat_map];
    destruct (topics trigger) as [|topic0 others]; try congruence.
  destruct (iteration trigger true r) as [tr b] eqn:Hit.
  pose proof (iteration_keeps_flag trigger true r) as Hb.
  rewrite Hit in Hb. cbn [snd] in Hb. subst b.
  now rewrite IH.
Qed.

(** [Initialize] leaves the subscribe topic as the only topic and the
    configuration as it was. *)
Lemma Initialize_trigger subErr trigger :
  let init := Initialize {| newClientErr := None; subscribeErr := subErr |} trigger in
  workerStarted init = true
  /\ topics (triggerAfter init) = [SubscribeTopic (Binding (Configuration trigger))]
  /\ Configuration (triggerAfter init) = Configuration trigger.
Proof. repeat split. Qed.

Lemma count_flat_map {A} (p : event -> bool) (f : A -> list event) (l : list A) :
  count p (flat_map f l) = list_sum (List.map (fun a => count p (f a)) l).
Proof.
  induction l as [|a l IH]; [reflexivity|].
  cbn [flat_map List.map].
  change (list_sum (?x :: ?xs)) with (x + list_sum xs).
  rewrite <- IH. unfold count.
  now rewrite List.filter_app, List.length_app.
Qed.

Lemma list_sum_indicator {A} (q : A -> bool) (g : A -> nat) (l : list A) :
  (forall a, g a = if q a then 1 else 0) ->
  list_sum (List.map g l) = length (List.filter q l).
Proof.
  intros Hg. induction l as [|a l IH]; [reflexivity|].
  cbn [List.map List.filter].
  change (list_sum (?x :: ?xs)) with (x + list_sum xs).
  rewrite Hg, IH. now destruct (q a).
Qed.

Lemma omap_flat_map {A B C} (g : B -> option C) (f : A -> list B) (l : list A) :
  omap g (flat_map f l) = flat_map (fun a => omap g (f a)) l.
Proof.
  induction l as [|a l IH]; [reflexivity|].
  cbn [flat_map]. now rewrite omap_app, IH.
Qed.

(** What one pass contributes: the pipeline runs once per arrival, the
    bus client is called once per arrival with output, the error log
    gets one line per failure. *)
Lemma iteration_runs trigger r :
  omap run_of (iteration trigger true r).1 = option_list (arrival_of r).
Proof.
  destruct r as [msgErr|msgs env]; [reflexivity|].
  cbn [iteration fst arrival_of option_list]. unfold on_message.
  destruct (OutputData _); [|reflexivity].
  destruct (busPublishErr env); reflexivity.
Qed.

Lemma iteration_publishes trigger r :
  count is_bus_publish (iteration trigger true r).1
  = if has_output trigger r then 1 else 0.
Proof.
  destruct r as [msgErr|msgs env]; [reflexivity|].
  cbn [iteration fst has_output]. unfold count.
  rewrite on_message_publishes.
  now destruct (output_of trigger msgs env).
Qed.

Lemma iteration_error_logs trigger r :
  count is_error_log (iteration trigger true r).1
  = if has_failure trigger r then 1 else 0.
Proof.
  destruct r as [msgErr|msgs env]; [reflexivity|].
  cbn [iteration fst has_failure]. unfold on_message, output_of.
  destruct (OutputData _); [|reflexivity].
  destruct (busPublishErr env); reflexivity.
Qed.

(** C9: the worker never leaves its loop.  Started by [Initialize],
    whatever arrivals and error notifications its two channels deliver,
    it serves them all and is back in [select]: the pipeline ran once
    for every arrival, in order; the bus client was called once for
    every arrival with output and not again after a failed publish;
    every failed publish and every error notification left one line in
    the error log; and what came before has no bearing on how later
    inputs are served. *)
Theorem worker_never_exits subErr trigger0 inputs :
  let init := Initialize {| newClientErr := None; subscribeErr := subErr |} trigger0 in
  let trigger := triggerAfter init in
  let r := run_worker trigger inputs in
  workerStarted init = true
  /\ r.1.2 = Waiting
  /\ r.2 = []
  /\ omap run_of r.1.1 = omap arrival_of inputs
  /\ count is_bus_publish r.1.1 = length (List.filter (has_output trigger) inputs)
  /\ count is_error_log r.1.1 = length (List.filter (has_failure trigger) inputs)
  /\ forall later,
       run_worker trigger (inputs ++ later)
       = ((r.1.1 ++ (run_worker trigger later).1.1)%list, Waiting, []).
Proof.
  intros init trigger.
  assert (Htopics : topics trigger <> []) by discriminate.
  cbv zeta. rewrite (run_worker_trace _ _ Htopics). cbn [fst snd].
  split; [reflexivity|]. split; [reflexivity|]. split; [reflexivity|].
  split; [|split; [|split]].
  - rewrite omap_flat_map.
    induction inputs as [|r inputs IH]; [reflexivity|].
    cbn [flat_map]. rewrite iteration_runs, IH.
    now destruct r.
  - rewrite count_flat_map.
    apply list_sum_indicator. intros r. apply iteration_publishes.
  - rewrite count_flat_map.
    apply list_sum_indicator. intros r. apply iteration_error_logs.
  - intros later. rewrite !(run_worker_trace _ _ Htopics). cbn [fst].
    now rewrite flat_map_app.
Qed.

(** Three inputs in a row: an arrival whose publish fails, an error
    notification, an arrival whose publish works.  Both arrivals are
    run and published once, both failures are logged, and the worker
    waits for more. *)
Example worker_after_failures :
  run_worker (triggerAfter (Initialize {| newClientErr := None; subscribeErr := None |}
                              Samples.trigger0))
    [FromMessages Samples.arrival0
       {| stageOps := [OpComplete (Some [x6f; x6b])];
          busPublishErr := Some "bus unreachable" |};
     FromMessageErrors (Some "malformed frame");
     FromMessages Samples.arrival0
       {| stageOps := [OpComplete (Some [x6f; x6b])]; busPublishErr := None |}]
  = ([Log TRACE "Received message from bus"
        ["topic"; "processed"; "correlation-id"; "abc-123"];
      RunPipeline Samples.arrival0;
      BusPublish {| CorrelationID := "abc-123"; Payload := Some [x6f; x6b];
                    ContentType := "application/json" |} "processed";
      Log ERROR "Failed to publish Message to bus, bus unreachable" [];
      Log TRACE "Published message to bus"
        ["topic"; "processed"; "correlation-id"; "abc-123"];
      Log ERROR "Failed to receive ZMQ Message, malformed frame" [];
      Log TRACE "Received message from bus"
        ["topic"; "processed"; "correlation-id"; "abc-123"];
      RunPipeline Samples.arrival0;
      BusPublish {| CorrelationID := "abc-123"; Payload := Some [x6f; x6b];
                    ContentType := "application/json" |} "processed";
      Log TRACE "Published message to bus"
        ["topic"; "processed"; "correlation-id"; "abc-123"]],
     Waiting, []).
Proof. reflexivity. Qed.

End TriggerSpec.

(** * Further properties of the export sender *)
Module SenderMore.
Import Go Effects Common Appcontext Transforms.

Lemma connect_trace_connects env isConnected :
  count is_connect (connect_trace env isConnected) = if isConnected then 0 else 1.
Proof.
  unfold connect_trace. now destruct isConnected, (is_nil (connectErr env)).
Qed.

Lemma connect_trace_no_error_log env isConnected :
  count is_error_log (connect_trace env isConnected) = 0.
Proof.
  unfold connect_trace. now destruct isConnected, (is_nil (connectErr env)).
Qed.

(** Every call with an input falls under one of three descriptions. *)
Lemma send_cases env isConnected sender ctx param0 rest :
  let r := run_send env isConnected sender ctx (param0 :: rest) in
  (passes_connect env isConnected = false
   /\ isConnected = false
   /\ exists e, connectErr env = Some e
       /\ r = ((false, IError ("Could not connect to mqtt server, drop event. Error: " ++ e)),
               {| connected := false; trace := connect_trace env false |}))
  \/ (passes_connect env isConnected = true
      /\ is_string param0 = false
      /\ r = ((false, IError "Unexpected type received"),
              {| connected := true; trace := connect_trace env isConnected |}))
  \/ (passes_connect env isConnected = true
      /\ exists data, param0 = IString data
         /\ r = run_send env isConnected sender ctx (IString data :: rest)).
Proof.
  cbv zeta.
  destruct (passes_connect env isConnected) eqn:Hpass.
  - destruct (is_string param0) eqn:Hs.
    + right; right. split; [reflexivity|].
      destruct param0; try discriminate. eexists. split; reflexivity.
    + right; left. split; [reflexivity|]. split; [reflexivity|].
      exact (SenderSpec.send_not_a_string _ _ _ _ _ _ Hs Hpass).
  - left. split; [reflexivity|].
    destruct isConnected; [discriminate|]. split; [reflexivity|].
    destruct (connectErr env) as [e|] eqn:Hce;
      [|now unfold passes_connect in Hpass; rewrite Hce in Hpass].
    exists e. split; [reflexivity|].
    exact (SenderSpec.send_connect_failed _ _ _ _ _ _ Hce).
Qed.

(** X1: a string that gets past the connection step is published
    once, on the topic of the sender, with the qos and retain flag of
    its options, and the payload is the bytes of the string. *)
Theorem send_publishes_configured_message env isConnected sender ctx data rest :
  passes_connect env isConnected = true ->
  List.filter is_publish
    (trace (run_send env isConnected sender ctx (IString data :: rest)).2)
  = [ClientPublish (topic sender) (qos (opts sender)) (retain (opts sender))
       (list_byte_of_string data)]
  /\ string_of_list_byte (list_byte_of_string data) = data.
Proof.
  intros Hpass. split; [|apply string_of_list_byte_of_string].
  rewrite (SenderSpec.send_string _ _ _ _ _ _ Hpass). cbn [snd trace].
  rewrite !List.filter_app.
  assert (Hq : List.filter is_publish (connect_trace env isConnected) = []).
  { unfold connect_trace. now destruct isConnected, (is_nil (connectErr env)). }
  rewrite Hq. destruct (publishErr env), (markErr env); reflexivity.
Qed.

Lemma send_publishes_configured_message_witness :
  List.filter is_publish
    (trace (run_send Samples.store_down false Samples.sender0 Samples.ctx0
              [IString "hi"]).2)
  = [ClientPublish "readings" x00 false [x68; x69]]
  /\ string_of_list_byte (list_byte_of_string "hi") = "hi".
Proof.
  exact (send_publishes_configured_message Samples.store_down false
           Samples.sender0 Samples.ctx0 "hi" [] eq_refl).
Defined.

Lemma send_connection_step env isConnected sender ctx param0 rest :
  count is_connect (trace (run_send env isConnected sender ctx (param0 :: rest)).2)
  = (if isConnected then 0 else 1)
  /\ connected (run_send env isConnected sender ctx (param0 :: rest)).2
     = passes_connect env isConnected.
Proof.
  destruct (send_cases env isConnected sender ctx param0 rest)
    as [(Hpass & -> & e & Hce & ->)|[(Hpass & Hs & ->)|(Hpass & data & -> & _)]].
  - cbn [snd trace connected]. now rewrite connect_trace_connects, Hpass.
  - cbn [snd trace connected]. now rewrite connect_trace_connects, Hpass.
  - rewrite (SenderSpec.send_string _ _ _ _ _ _ Hpass). cbn [snd trace connected].
    rewrite !SenderSpec.count_app, connect_trace_connects, Hpass.
    split; [|reflexivity].
    destruct isConnected, (publishErr env), (markErr env); reflexivity.
Qed.

(** X2: a call with an input asks a connected client to connect zero
    times and a disconnected one exactly once; after the call the
    client is connected exactly when it was before or the connect
    attempt ended without error. *)
Theorem send_connection_state env isConnected sender ctx param0 rest :
  let r := run_send env isConnected sender ctx (param0 :: rest) in
  count is_connect (trace r.2) = (if isConnected then 0 else 1)
  /\ connected r.2 = passes_connect env isConnected.
Proof. exact (send_connection_step env isConnected sender ctx param0 rest). Qed.

(** X3: a call ends in one of two ways.  Either it returns [(true,
    nil)], and then the first input was a string, published once
    without error and followed by one [MarkAsPushed]; or it returns
    false together with an error, and then [MarkAsPushed] was not
    called. *)
Theorem send_success_or_error env isConnected sender ctx params :
  let r := run_send env isConnected sender ctx params in
  (r.1 = (true, INil)
   /\ (exists data rest, params = IString data :: rest)
   /\ publishErr env = None
   /\ count is_publish (trace r.2) = 1
   /\ count is_mark (trace r.2) = 1)
  \/ ((exists e, r.1 = (false, IError e))
      /\ count is_mark (trace r.2) = 0).
Proof.
  cbv zeta. destruct params as [|param0 rest].
  { right. split; [now eexists|reflexivity]. }
  destruct (send_cases env isConnected sender ctx param0 rest)
    as [(Hpass & -> & e & Hce & ->)|[(Hpass & Hs & ->)|(Hpass & data & -> & _)]].
  - right. split; [now eexists|]. cbn [snd trace].
    apply SenderSpec.connect_trace_quiet.
  - right. split; [now eexists|]. cbn [snd trace].
    apply SenderSpec.connect_trace_quiet.
  - rewrite (SenderSpec.send_string _ _ _ _ _ _ Hpass). cbn [fst snd trace].
    rewrite !SenderSpec.count_app.
    destruct (SenderSpec.connect_trace_quiet env isConnected) as [-> ->].
    destruct (publishErr env) as [e|].
    + right. split; [now eexists|reflexivity].
    + left. split; [reflexivity|]. split; [now eexists _, _|].
      split; [reflexivity|]. now destruct (markErr env).
Qed.

(** X4: the sender writes to the error log in one situation only: the
    string was published without error and [MarkAsPushed] failed; the
    one line is the error of [MarkAsPushed].  Failures to connect, to
    publish and inputs of the wrong type are returned and not logged. *)
Theorem send_error_log env isConnected sender ctx param0 rest :
  let r := run_send env isConnected sender ctx (param0 :: rest) in
  List.filter is_error_log (trace r.2)
  = if is_string param0 && passes_connect env isConnected
       && is_nil (publishErr env)
    then match markErr env with
         | Some e => [Log ERROR e []]
         | None => []
         end
    else [].
Proof.
  cbv zeta.
  assert (Hq : forall c, List.filter is_error_log (connect_trace env c) = []).
  { intros c. unfold connect_trace. now destruct c, (is_nil (connectErr env)). }
  destruct (send_cases env isConnected sender ctx param0 rest)
    as [(Hpass & -> & e & Hce & ->)|[(Hpass & Hs & ->)|(Hpass & data & -> & _)]].
  - cbn [snd trace]. rewrite Hq, Hpass. now rewrite andb_false_r.
  - cbn [snd trace]. now rewrite Hq, Hs.
  - rewrite (SenderSpec.send_string _ _ _ _ _ _ Hpass). cbn [snd trace is_string].
    rewrite !List.filter_app, Hq, Hpass.
    destruct (publishErr env), (markErr env); reflexivity.
Qed.

(** A call works on the history only through the connection state and
    adds its own events at the end. *)
Lemma send_appends env sender ctx params w :
  MQTTSend env sender ctx params w
  = let r := run_send env (connected w) sender ctx params in
    (r.1, {| connected := connected r.2; trace := (trace w ++ trace r.2)%list |}).
Proof.
  destruct w as [c tr]. cbv zeta. cbn [connected].
  destruct params as [|param0 rest].
  { unfold run_send, MQTTSend. cbn. now rewrite app_nil_r. }
  destruct env as [[ce|] [pe|] [me|]], c, param0;
    cbv [run_send MQTTSend send_data IsConnected Connect Publish MarkAsPushed
         LoggingClient_Info LoggingClient_Error LoggingClient_Trace
         emit set_connected get_connected Wait Error tokenErr
         mbind mret M_bind M_ret is_nil negb andb
         connectErr publishErr markErr connected trace fst snd];
    cbn [app]; rewrite <- ?app_assoc; reflexivity.
Qed.

(** X19: two calls in a row on one sender.  When the first call got
    past the connection step the second makes no connect attempt; when
    the connect attempt of the first failed the second, given an
    input, makes a new one. *)
Theorem send_reuses_connection env1 env2 sender1 sender2 ctx1 ctx2
    param1 rest1 param2 rest2 w :
  let w1 := (MQTTSend env1 sender1 ctx1 (param1 :: rest1) w).2 in
  let w2 := (MQTTSend env2 sender2 ctx2 (param2 :: rest2) w1).2 in
  count is_connect (trace w2)
  = count is_connect (trace w1)
    + (if passes_connect env1 (connected w) then 0 else 1).
Proof.
  cbv zeta.
  rewrite (send_appends env2). cbv zeta. cbn [snd trace].
  rewrite SenderSpec.count_app. f_equal.
  rewrite (proj1 (send_connection_step env2 _ sender2 ctx2 param2 rest2)).
  rewrite (send_appends env1). cbv zeta. cbn [snd connected].
  rewrite (proj2 (send_connection_step env1 _ sender1 ctx1 param1 rest1)).
  reflexivity.
Qed.

End SenderMore.

(** * Further properties of the constructor *)
Module ConstructorMore.
Import Go Effects Common Appcontext Transforms.

(** X5: a sender for a TLS protocol has a TLS configuration with the
    loaded key pair as its only certificate, no client CAs and
    [InsecureSkipVerify] set: the certificate of the broker is never
    verified.  A sender for any other protocol has no TLS
    configuration. *)
Theorem constructor_tls_config
    (load : string -> string -> Certificate + error)
    (h : gmap nat MqttConfig) logging addr certFile key config sender tr :
  NewMQTTSender load h logging addr certFile key config = (Return (Some sender), tr) ->
  if tls_protocol (ToLower (Protocol addr)) then
    exists cert,
      load certFile key = inl cert
      /\ TLSConfig (options (client sender))
         = Some {| ClientCAs := None; InsecureSkipVerify := true;
                   Certificates := [cert] |}
  else TLSConfig (options (client sender)) = None.
Proof.
  unfold NewMQTTSender.
  destruct (deref h config) as [cfg|]; [|discriminate].
  destruct (tls_protocol (ToLower (Protocol addr))).
  - destruct (load certFile key) as [cert|err];
      [|destruct logging; discriminate].
    intros [= <- _]. now exists cert.
  - now intros [= <- _].
Qed.

Lemma constructor_tls_config_witness :
  exists sender cert,
    NewMQTTSender Samples.some_cert Samples.one_config (Some Logger) Samples.ssl_addr
      "cert.pem" "key.pem" (Some 0) = (Return (Some sender), [LoadKeyPair "cert.pem" "key.pem"])
    /\ Samples.some_cert "cert.pem" "key.pem" = inl cert
    /\ TLSConfig (options (client sender))
       = Some {| ClientCAs := None; InsecureSkipVerify := true;
                 Certificates := [cert] |}.
Proof.
  eexists.
  destruct (constructor_tls_config Samples.some_cert Samples.one_config
              (Some Logger) Samples.ssl_addr "cert.pem" "key.pem" (Some 0) _ _ eq_refl)
    as [cert [Hload Htls]].
  exists cert. split; [reflexivity|]. split; [exact Hload|exact Htls].
Defined.

(** X6: a returned sender holds a copy of the configuration the
    pointer led to when the constructor was called, its client has the
    auto-reconnect flag of that configuration (not paho's default), and
    topic, client id, user name and password are those of the
    addressable. *)
Theorem constructor_copies_config
    (load : string -> string -> Certificate + error)
    (h : gmap nat MqttConfig) logging addr certFile key (l : nat) cfg sender tr :
  h !! l = Some cfg ->
  NewMQTTSender load h logging addr certFile key (Some l) = (Return (Some sender), tr) ->
  opts sender = cfg
  /\ AutoReconnect (options (client sender)) = autoreconnect cfg
  /\ topic sender = Topic addr
  /\ ClientID (options (client sender)) = Publisher addr
  /\ Username (options (client sender)) = User addr
  /\ Password (options (client sender)) = AddrPassword addr.
Proof.
  intros Hl. unfold NewMQTTSender. cbn [deref]. rewrite Hl.
  destruct (tls_protocol (ToLower (Protocol addr))).
  - destruct (load certFile key) as [cert|err];
      [|destruct logging; discriminate].
    intros [= <- _]. repeat split.
  - intros [= <- _]. repeat split.
Qed.

(** A configuration stored by hand, with qos 1 and retain: the sender
    has both, and its client does not reconnect although paho's default
    options would. *)
Lemma constructor_copies_config_witness :
  exists sender,
    NewMQTTSender Samples.no_cert
      (<[7 := {| qos := x01; retain := true; autoreconnect := false |}]> Samples.one_config)
      (Some Logger) Samples.tcp_addr "" "" (Some 7) = (Return (Some sender), [])
    /\ opts sender = {| qos := x01; retain := true; autoreconnect := false |}
    /\ AutoReconnect (options (client sender)) = false
    /\ topic sender = "readings"
    /\ ClientID (options (client sender)) = "exporter"
    /\ Username (options (client sender)) = "edgex"
    /\ Password (options (client sender)) = "secret".
Proof.
  eexists. split; [reflexivity|].
  exact (constructor_copies_config Samples.no_cert
           (<[7 := {| qos := x01; retain := true; autoreconnect := false |}]> Samples.one_config)
           (Some Logger) Samples.tcp_addr "" "" 7 _ _ _ eq_refl eq_refl).
Defined.

(** X7: the constructor panics in exactly two situations: the
    configuration pointer is nil (whatever the protocol, before a key
    pair is loaded or anything is logged), or the protocol is a TLS
    one, the key pair fails to load and the logging client is nil, so
    that reporting the failure panics, after the attempt to load.  In
    every other case it returns. *)
Theorem constructor_panics
    (load : string -> string -> Certificate + error)
    (h : gmap nat MqttConfig) logging addr certFile key config :
  let r := NewMQTTSender load h logging addr certFile key config in
  (r.1 = Panic <->
   deref h config = None
   \/ (tls_protocol (ToLower (Protocol addr)) = true
       /\ (exists err, load certFile key = inr err)
       /\ logging = None))
  /\ match r.1 with
     | Panic =>
         r.2 = if is_nil (deref h config) then []
               else [LoadKeyPair certFile key]
     | Return _ => True
     end.
Proof.
  cbv zeta. unfold NewMQTTSender.
  destruct (deref h config) as [cfg|].
  - destruct (tls_protocol (ToLower (Protocol addr))).
    + destruct (load certFile key) as [cert|err].
      * split; [|exact I]. split; [discriminate|].
        intros [[=]|(_ & [err [=]] & _)].
      * destruct logging as [lg|].
        -- split; [|exact I]. split; [discriminate|].
           intros [[=]|(_ & _ & [=])].
        -- split; [|reflexivity].
           split; [|reflexivity]. intros _. right.
           split; [reflexivity|]. split; [now exists err|reflexivity].
    + split; [|exact I]. split; [discriminate|].
      intros [[=]|([=] & _)].
  - split; [|reflexivity].
    split; [|reflexivity]. intros _. now left.
Qed.

(** A TLS address, no certificate and no logging client: the
    constructor panics where it would have logged. *)
Example constructor_nil_logger :
  NewMQTTSender Samples.no_cert Samples.one_config None Samples.ssl_addr
    "cert.pem" "key.pem" (Some 0)
  = (Panic, [LoadKeyPair "cert.pem" "key.pem"]).
Proof. reflexivity. Qed.

End ConstructorMore.

(** * Further properties of the bus-subscription trigger *)
Module TriggerMore.
Import Go Effects Common Appcontext Runtime Messagebus Reading.

(** X8: [Initialize] either fails with the error of
    [NewMessageClient], and then it has subscribed to nothing, started
    no worker and left the trigger without a client; or it returns nil,
    and then it has subscribed once, to the subscribe topic of the
    binding alone, and started the worker.  Nothing is written to the
    error log either way. *)
Theorem initialize_all_or_nothing env trigger :
  let r := Initialize env trigger in
  count is_error_log (initTrace r) = 0
  /\ match newClientErr env with
     | Some e =>
         returned r = Some e
         /\ workerStarted r = false
         /\ List.filter is_subscribe (initTrace r) = []
         /\ client (triggerAfter r) = None
     | None =>
         returned r = None
         /\ workerStarted r = true
         /\ List.filter is_subscribe (initTrace r)
            = [BusSubscribe [SubscribeTopic (Binding (Configuration trigger))]]
         /\ topics (triggerAfter r)
            = [SubscribeTopic (Binding (Configuration trigger))]
     end.
Proof.
  cbv zeta. unfold Initialize.
  destruct (newClientErr env) as [e|]; repeat split.
Qed.

Lemma iteration_steps trigger r :
  omap bus_step (iteration trigger true r).1 = steps_for trigger r.
Proof.
  destruct r as [msgErr|msgs env]; [reflexivity|].
  cbn [iteration fst steps_for]. unfold on_message, output_of.
  rewrite TriggerSpec.ProcessEvent_correlation.
  destruct (OutputData _); [|reflexivity].
  destruct (busPublishErr env); reflexivity.
Qed.

(** X9: the worker handles its inputs one at a time, in the order of
    delivery.  Reduced to pipeline runs and bus publishes, its trace is
    the run of the first arrival, the publish of its output if it has
    one, the run of the second arrival, and so on; error notifications
    contribute nothing.  So the output of an arrival is published
    before the next arrival enters the pipeline, every published
    envelope has the correlation id of the arrival just run, and a
    failed publish is not repeated. *)
Theorem worker_runs_then_publishes subErr trigger0 inputs :
  let trigger :=
    triggerAfter (Initialize {| newClientErr := None; subscribeErr := subErr |}
                    trigger0) in
  omap bus_step (run_worker trigger inputs).1.1
  = flat_map (steps_for trigger) inputs.
Proof.
  intros trigger.
  assert (Htopics : topics trigger <> []) by discriminate.
  rewrite (TriggerSpec.run_worker_trace _ _ Htopics). cbn [fst].
  rewrite TriggerSpec.omap_flat_map.
  induction inputs as [|r inputs IH]; [reflexivity|].
  cbn [flat_map]. now rewrite iteration_steps, IH.
Qed.

(** X10: when the publish of an output fails, the worker logs the
    failure and then still logs "Published message to bus": for an
    arrival with output the trace always ends with that line, after the
    error line if there is one. *)
Theorem on_message_logs_published_after_failure trigger msgs env output :
  output_of trigger msgs env = Some output ->
  exists pre,
    on_message trigger msgs env
    = (pre
       ++ match busPublishErr env with
          | Some e => [Log ERROR ("Failed to publish Message to bus, " ++ e) []]
          | None => []
          end
       ++ [Log TRACE "Published message to bus"
             ["topic"; PublishTopic (Binding (Configuration trigger));
              CorrelationHeader; CorrelationID msgs]])%list
    /\ count is_error_log pre = 0.
Proof.
  unfold output_of, on_message. intros ->.
  eexists [_; _; _]. split; [now destruct (busPublishErr env)|reflexivity].
Qed.

Lemma on_message_logs_published_after_failure_witness :
  exists pre,
    on_message Samples.trigger0 Samples.arrival0
      {| stageOps := [OpComplete (Some [x6f; x6b])];
         busPublishErr := Some "bus unreachable" |}
    = (pre
       ++ [Log ERROR "Failed to publish Message to bus, bus unreachable" []]
       ++ [Log TRACE "Published message to bus"
             ["topic"; "processed"; "correlation-id"; "abc-123"]])%list
    /\ count is_error_log pre = 0.
Proof.
  exact (on_message_logs_published_after_failure Samples.trigger0
           Samples.arrival0
           {| stageOps := [OpComplete (Some [x6f; x6b])];
              busPublishErr := Some "bus unreachable" |}
           [x6f; x6b] eq_refl).
Defined.

End TriggerMore.

(** * Properties of the configuration loader *)
Module ConfigLoaderSpec.
Import Go ConfigLoader Reading.

(** ** Strings *)

Lemma length_append (s t : string) :
  String.length (s ++ t) = String.length s + String.length t.
Proof.
  induction s as [|c s IH]; [reflexivity|].
  simpl. now rewrite IH.
Qed.

Lemma substring_all (s t : string) :
  substring 0 (String.length s) (s ++ t) = s.
Proof.
  induction s as [|c s IH]; [now destruct t|].
  simpl. now rewrite IH.
Qed.

Lemma substring_self (s : string) : substring 0 (String.length s) s = s.
Proof. induction s as [|c s IH]; [reflexivity|]. simpl. now rewrite IH. Qed.

Lemma prefix_append (p s : string) : String.prefix p (p ++ s) = true.
Proof. apply prefix_correct, substring_all. Qed.

Lemma len_zero (s : string) : (len s =? 0)%Z = (s =? "")%string.
Proof. now destruct s. Qed.

Lemma slice_nat (s : string) (lo hi : nat) :
  lo <= hi <= String.length s ->
  slice s (Z.of_nat lo) (Z.of_nat hi) = Return (substring lo (hi - lo) s).
Proof.
  intros [Hlo Hhi]. unfold slice, len.
  replace ((0 <=? Z.of_nat lo)%Z) with true by (symmetry; apply Z.leb_le; lia).
  replace ((Z.of_nat lo <=? Z.of_nat hi)%Z) with true by (symmetry; apply Z.leb_le; lia).
  replace ((Z.of_nat hi <=? Z.of_nat (String.length s))%Z) with true
    by (symmetry; apply Z.leb_le; lia).
  cbn [andb]. rewrite Nat2Z.id.
  replace (Z.to_nat (Z.of_nat hi - Z.of_nat lo)) with (hi - lo) by lia.
  reflexivity.
Qed.

(** ** [determinePath] *)

(** X11: [determinePath] never gives the empty path.  A directory from
    the command line wins over the environment variable
    EDGEX_CONF_DIR, the variable wins over "./res"; so the result,
    passed in again as the directory, comes back unchanged. *)
Theorem determinePath_never_empty (C : Type) (sys : Sys C) (configDir : string) :
  determinePath C sys configDir <> ""
  /\ determinePath C sys (determinePath C sys configDir)
     = determinePath C sys configDir
  /\ determinePath C sys configDir
     = if (configDir =? "")%string
       then if (getenv sys "EDGEX_CONF_DIR" =? "")%string
            then "./res" else getenv sys "EDGEX_CONF_DIR"
       else configDir.
Proof.
  assert (Hform : forall d,
             determinePath C sys d
             = if (d =? "")%string
               then if (getenv sys "EDGEX_CONF_DIR" =? "")%string
                    then "./res" else getenv sys "EDGEX_CONF_DIR"
               else d).
  { intros d. unfold determinePath. cbv zeta. rewrite !len_zero.
    destruct (d =? "")%string eqn:Hd; [reflexivity|]. now rewrite Hd. }
  assert (Hne : determinePath C sys configDir <> "").
  { rewrite Hform.
    destruct (String.eqb_spec configDir "") as [_|Hd]; [|exact Hd].
    destruct (String.eqb_spec (getenv sys "EDGEX_CONF_DIR") "") as [_|He];
      [discriminate|exact He]. }
  split; [exact Hne|]. split; [|apply Hform].
  rewrite (Hform (determinePath C sys configDir)).
  apply String.eqb_neq in Hne. now rewrite Hne.
Qed.

(** ** [LoadFromFile] *)

Lemma append_assoc (a b c : string) : (a ++ b) ++ c = a ++ (b ++ c).
Proof.
  induction a as [|x a IH]; [reflexivity|].
  change (String x ((a ++ b) ++ c) = String x (a ++ (b ++ c))).
  now rewrite IH.
Qed.

Lemma fileName_under_path cfn (C : Type) (sys : Sys C) profile configDir :
  HasPrefix (fileName_of cfn C sys profile configDir)
    (determinePath C sys configDir ++ "/") = true.
Proof.
  unfold HasPrefix, fileName_of. cbv zeta.
  destruct (len profile >? 0)%Z;
    rewrite <- append_assoc; apply prefix_append.
Qed.

(** X12: [LoadFromFile] reads exactly one file, which lies under the
    path [determinePath] gives.  It returns nil exactly when the file
    could be read and [toml.Unmarshal] returned nil; when the file
    cannot be read, [toml.Unmarshal] is not called, the configuration
    object is left as it was and the error names the file. *)
Theorem LoadFromFile_result cfn (C : Type) (sys : Sys C) profile configDir conf :
  let r := LoadFromFile cfn C sys profile configDir conf in
  let fileName := fileName_of cfn C sys profile configDir in
  omap read_name r.2 = [fileName]
  /\ HasPrefix fileName (determinePath C sys configDir ++ "/") = true
  /\ (r.1.1 = None <->
      exists contents,
        readFile sys fileName = inl contents
        /\ (unmarshal sys contents conf).2 = None)
  /\ match readFile sys fileName with
     | inr e =>
         r = (Some ("could not load configuration file (" ++ fileName ++ "): " ++ e),
              conf, [ReadFile fileName])
     | inl contents => r.1.2 = (unmarshal sys contents conf).1
     end.
Proof.
  cbv zeta. unfold LoadFromFile.
  split; [|split; [apply fileName_under_path|]].
  - destruct (readFile sys _) as [contents|e]; [|reflexivity].
    destruct (unmarshal sys contents conf) as [conf' [e|]]; reflexivity.
  - destruct (readFile sys _) as [contents|e].
    + destruct (unmarshal sys contents conf) as [conf' [e|]] eqn:Hu;
        cbn [fst snd]; split; try reflexivity; split.
      * discriminate.
      * intros (contents' & [= <-] & He). rewrite Hu in He. discriminate.
      * intros _. exists contents. now rewrite Hu.
      * reflexivity.
    + split; [|reflexivity]. cbn [fst snd]. split; [discriminate|].
      now intros (contents & [=] & _).
Qed.

(** ** [VerifyTomlFiles] *)

(** X13: the profile of a match is cut out by position alone.  For a
    file "res/<dir>/<name>" whose name has the 18 bytes of
    "configuration.toml" the profile is <dir>, whatever the name is;
    for "res/configuration.toml" it is empty. *)
Theorem profile_of_directory (dir name : string) :
  String.length name = 18 ->
  profile_of ("res/" ++ dir ++ "/" ++ name) = Return dir
  /\ profile_of "res/configuration.toml" = Return "".
Proof.
  intros Hname. split; [|reflexivity].
  unfold profile_of.
  assert (Hlen : String.length ("res/" ++ dir ++ "/" ++ name)
                 = String.length dir + 23).
  { rewrite !length_append, Hname. cbn [String.length]. lia. }
  change (len "res") with (Z.of_nat 3).
  replace (len ("res/" ++ dir ++ "/" ++ name) - len "/configuration.toml")%Z
    with (Z.of_nat (String.length dir + 4))
    by (unfold len; rewrite Hlen; cbn [String.length]; lia).
  rewrite slice_nat by lia.
  replace (String.length dir + 4 - 3) with (S (String.length dir)) by lia.
  change (substring 3 (S (String.length dir)) ("res/" ++ dir ++ "/" ++ name))
    with (String "/" (substring 0 (String.length dir) (dir ++ "/" ++ name))).
  rewrite substring_all. cbn [String.eqb negb].
  change 1%Z with (Z.of_nat 1). unfold len at 1.
  rewrite slice_nat by (cbn [String.length]; lia).
  cbn [String.length].
  replace (S (String.length dir) - 1) with (String.length dir) by lia.
  change (substring 1 (String.length dir) (String "/" dir))
    with (substring 0 (String.length dir) dir).
  now rewrite substring_self.
Qed.

Lemma profile_of_directory_witness :
  profile_of "res/docker/configuratioX.toml" = Return "docker"
  /\ profile_of "res/configuration.toml" = Return "".
Proof.
  exact (profile_of_directory "docker" "configuratioX.toml" eq_refl).
Defined.

(** A match shorter than 22 bytes makes the slice expression panic. *)
Lemma profile_of_short_name (f : string) :
  String.length f < 22 -> profile_of f = Panic.
Proof.
  intros Hlen. unfold profile_of, slice.
  change (len "res") with 3%Z. change (len "/configuration.toml") with 19%Z.
  replace ((3 <=? len f - 19)%Z) with false
    by (symmetry; apply Z.leb_gt; unfold len; lia).
  reflexivity.
Qed.

Lemma profile_of_short_name_witness : profile_of "res/a/b.toml" = Panic.
Proof.
  apply (profile_of_short_name "res/a/b.toml"). cbn [String.length]. lia.
Defined.

(** The reads of one [LoadFromFile]. *)
Lemma LoadFromFile_reads cfn (C : Type) (sys : Sys C) profile configDir conf :
  omap read_name (LoadFromFile cfn C sys profile configDir conf).2
  = [fileName_of cfn C sys profile configDir].
Proof.
  unfold LoadFromFile.
  destruct (readFile sys _) as [contents|e]; [|reflexivity].
  destruct (unmarshal sys contents conf) as [conf' [e|]]; reflexivity.
Qed.

Lemma planned_under_path cfn (C : Type) (sys : Sys C) files configDir :
  Forall (fun n => HasPrefix n (determinePath C sys configDir ++ "/") = true)
    (planned_reads cfn sys files configDir).
Proof.
  unfold planned_reads.
  induction files as [|f files IH]; [constructor|].
  cbn [omap list_omap]. destruct (profile_of f) as [|profile]; [exact IH|].
  constructor; [apply fileName_under_path|exact IH].
Qed.

(** The loop reads an initial part of its plan: all of it when it
    returns nil, up to the file at fault when it returns an error. *)
Lemma load_all_plan cfn (C : Type) (sys : Sys C) files configDir conf :
  let r := load_all cfn C sys files configDir conf in
  omap read_name r.2 `prefix_of` planned_reads cfn sys files configDir
  /\ match r.1.1 with
     | Return None =>
         omap read_name r.2 = planned_reads cfn sys files configDir
         /\ length (omap read_name r.2) = length files
     | Return (Some e) =>
         exists profile e',
           e = "Error loading toml file " ++ profile ++ ": " ++ e'
           /\ last (omap read_name r.2)
              = Some (fileName_of cfn C sys profile configDir)
     | Panic => True
     end.
Proof.
  cbv zeta. revert conf.
  induction files as [|f files IH]; intros conf.
  { split; [reflexivity|now split]. }
  cbn [load_all]. unfold planned_reads. cbn [omap list_omap].
  fold (planned_reads cfn sys files configDir).
  destruct (profile_of f) as [|profile].
  { split; [apply prefix_nil|exact I]. }
  pose proof (LoadFromFile_reads cfn C sys profile configDir conf) as Hreads.
  destruct (LoadFromFile cfn C sys profile configDir conf) as [[err conf'] tr].
  cbn [snd] in Hreads.
  destruct err as [e|].
  - cbn [fst snd]. rewrite Hreads. split; [apply prefix_cons, prefix_nil|].
    now exists profile, e.
  - specialize (IH conf').
    destruct (load_all cfn C sys files configDir conf') as [[r conf''] tr'].
    cbn [fst snd] in *. rewrite omap_app, Hreads.
    destruct IH as [IHp IHe]. split; [now apply prefix_cons|].
    destruct r as [|[e|]]; [exact I| |].
    + destruct IHe as (profile' & e' & -> & Hlast).
      exists profile', e'. split; [reflexivity|].
      cbn [app]. now rewrite last_cons, Hlast.
    + destruct IHe as [IHe1 IHe2]. cbn [app length].
      now rewrite IHe1, <- IHe2, IHe1.
Qed.

(** X15: [VerifyTomlFiles] reads the files of its plan in order, the
    matches of "res/*/*.toml" first and "res/configuration.toml" last,
    one file per match, and stops at the first match that fails: the
    files read are an initial part of the plan, the whole plan when nil
    is returned, and when a loading error is returned it is about the
    file read last.  Although the matches are looked up under "res",
    every file read lies under the path of [determinePath]. *)
Theorem VerifyTomlFiles_reads cfn (C : Type) (sys : Sys C) conf configDir :
  let files := (glob sys "res/*/*.toml" ++ glob sys "res/configuration.toml")%list in
  let r := VerifyTomlFiles cfn C sys conf configDir in
  omap read_name r.2 `prefix_of` planned_reads cfn sys files configDir
  /\ Forall (fun n => HasPrefix n (determinePath C sys configDir ++ "/") = true)
       (omap read_name r.2)
  /\ match r.1.1 with
     | Return None =>
         files <> []
         /\ omap read_name r.2 = planned_reads cfn sys files configDir
         /\ length (omap read_name r.2) = length files
     | Return (Some e) =>
         (files = [] /\ e = "There are no toml files")
         \/ (exists profile e',
                e = "Error loading toml file " ++ profile ++ ": " ++ e'
                /\ last (omap read_name r.2)
                   = Some (fileName_of cfn C sys profile configDir))
     | Panic => True
     end.
Proof.
  intros files r.
  assert (Hplan :
    omap read_name r.2 `prefix_of` planned_reads cfn sys files configDir
    /\ match r.1.1 with
       | Return None =>
           files <> []
           /\ omap read_name r.2 = planned_reads cfn sys files configDir
           /\ length (omap read_name r.2) = length files
       | Return (Some e) =>
           (files = [] /\ e = "There are no toml files")
           \/ (exists profile e',
                  e = "Error loading toml file " ++ profile ++ ": " ++ e'
                  /\ last (omap read_name r.2)
                     = Some (fileName_of cfn C sys profile configDir))
       | Panic => True
       end).
  { subst r. unfold VerifyTomlFiles. fold files.
    destruct files as [|f rest] eqn:Hfiles.
    - split; [apply prefix_nil|]. now left.
    - change (Z.of_nat (length (f :: rest)) =? 0)%Z with false. cbv iota.
      destruct (load_all_plan cfn C sys (f :: rest) configDir conf) as [Hp He].
      split; [exact Hp|].
      destruct (load_all cfn C sys (f :: rest) configDir conf).1.1 as [|[e|]];
        [exact I|now right|].
      split; [discriminate|exact He]. }
  destruct Hplan as [Hp He]. split; [exact Hp|]. split; [|exact He].
  destruct Hp as [k Hk].
  pose proof (planned_under_path cfn C sys files configDir) as Hall.
  rewrite Hk in Hall. now apply Forall_app in Hall.
Qed.

(** X16: [VerifyTomlFiles] answers "There are no toml files", having
    read nothing, exactly when neither pattern has a match. *)
Theorem VerifyTomlFiles_no_files cfn (C : Type) (sys : Sys C) conf configDir :
  VerifyTomlFiles cfn C sys conf configDir
  = (Return (Some "There are no toml files"), conf, [])
  <-> glob sys "res/*/*.toml" = [] /\ glob sys "res/configuration.toml" = [].
Proof.
  unfold VerifyTomlFiles. split.
  - destruct (glob sys "res/*/*.toml" ++ glob sys "res/configuration.toml")%list
      as [|f rest] eqn:Hfiles.
    + intros _. now apply app_eq_nil in Hfiles.
    + change (Z.of_nat (length (f :: rest)) =? 0)%Z with false. cbv iota.
      cbn [load_all]. destruct (profile_of f) as [|profile]; [discriminate|].
      pose proof (LoadFromFile_reads cfn C sys profile configDir conf) as Hreads.
      destruct (LoadFromFile cfn C sys profile configDir conf) as [[err conf'] tr].
      cbn [snd] in Hreads.
      destruct err as [e|].
      * intros H. assert (Htr : tr = []) by congruence.
        subst tr. discriminate.
      * destruct (load_all cfn C sys rest configDir conf') as [[r conf''] tr'].
        intros H. assert (Htr : (tr ++ tr')%list = []) by congruence.
        apply app_eq_nil in Htr as [-> _]. discriminate.
  - intros [-> ->]. reflexivity.
Qed.

(** X14: when the first match of "res/*/*.toml" is shorter than 22
    bytes, such as "res/a/b.toml", the slice expression that cuts out
    the profile panics: [VerifyTomlFiles] panics without having read a
    file. *)
Theorem VerifyTomlFiles_panics_on_short_match
    cfn (C : Type) (sys : Sys C) conf configDir f rest :
  glob sys "res/*/*.toml" = f :: rest ->
  String.length f < 22 ->
  VerifyTomlFiles cfn C sys conf configDir = (Panic, conf, []).
Proof.
  intros Hglob Hlen. unfold VerifyTomlFiles. rewrite Hglob.
  change (Z.of_nat (length ((f :: rest) ++ glob sys "res/configuration.toml")) =? 0)%Z
    with false. cbv iota.
  cbn [app load_all]. now rewrite (profile_of_short_name f Hlen).
Qed.

Lemma VerifyTomlFiles_panics_on_short_match_witness :
  VerifyTomlFiles "configuration.toml" Samples2.decoded Samples2.short_name
    [] "" = (Panic, [], []).
Proof.
  apply (VerifyTomlFiles_panics_on_short_match "configuration.toml"
           Samples2.decoded Samples2.short_name [] "" "res/a/b.toml" []);
    [reflexivity|cbn [String.length]; lia].
Defined.

(** The profile "docker" is found under "res" but the directory given
    is "/etc/edgex": the file is looked for there. *)
Example VerifyTomlFiles_other_directory :
  VerifyTomlFiles "configuration.toml" Samples2.decoded Samples2.docker_only []
    "/etc/edgex"
  = (Return (Some ("Error loading toml file docker: could not load configuration file "
                   ++ "(/etc/edgex/docker/configuration.toml): no such file or directory")),
     [],
     [ReadFile "/etc/edgex/docker/configuration.toml"]).
Proof. reflexivity. Qed.

Lemma replay_app (C : Type) (sys : Sys C) tr1 tr2 conf :
  replay sys (tr1 ++ tr2) conf = replay sys tr2 (replay sys tr1 conf).
Proof. unfold replay. apply fold_left_app. Qed.

Lemma LoadFromFile_replay cfn (C : Type) (sys : Sys C) profile configDir conf :
  let r := LoadFromFile cfn C sys profile configDir conf in
  r.1.2 = replay sys r.2 conf.
Proof.
  cbv zeta. unfold LoadFromFile.
  destruct (readFile sys _) as [contents|e]; [|reflexivity].
  unfold replay.
  destruct (unmarshal sys contents conf) as [conf' [e|]] eqn:Hu;
    cbn [fst snd fold_left]; now rewrite Hu.
Qed.

Lemma load_all_replay cfn (C : Type) (sys : Sys C) files configDir conf :
  let r := load_all cfn C sys files configDir conf in
  r.1.2 = replay sys r.2 conf.
Proof.
  cbv zeta. revert conf.
  induction files as [|f files IH]; intros conf; [reflexivity|].
  cbn [load_all]. destruct (profile_of f) as [|profile]; [reflexivity|].
  pose proof (LoadFromFile_replay cfn C sys profile configDir conf) as Hl.
  destruct (LoadFromFile cfn C sys profile configDir conf) as [[err conf'] tr].
  cbn [fst snd] in Hl. destruct err as [e|]; [exact Hl|].
  specialize (IH conf').
  destruct (load_all cfn C sys files configDir conf') as [[r conf''] tr'].
  cbn [fst snd] in *. now rewrite replay_app, <- Hl.
Qed.

(** X20: whatever [VerifyTomlFiles] returns, the configuration object
    it leaves is the one given, with the contents of the files it read
    decoded into it one after the other in the order they were read,
    the contents of a file whose decoding failed included.  Files that
    could not be read leave no mark. *)
Theorem VerifyTomlFiles_configuration cfn (C : Type) (sys : Sys C) conf configDir :
  let r := VerifyTomlFiles cfn C sys conf configDir in
  r.1.2 = replay sys r.2 conf.
Proof.
  cbv zeta. unfold VerifyTomlFiles.
  destruct (Z.of_nat _ =? 0)%Z; [reflexivity|apply load_all_replay].
Qed.

(** One profile and no top-level file: the profile is loaded from
    "./res", then the top-level file fails and the error names it. *)
Example VerifyTomlFiles_docker_only :
  VerifyTomlFiles "configuration.toml" Samples2.decoded Samples2.docker_only [] ""
  = (Return (Some ("Error loading toml file : could not load configuration file "
                   ++ "(./res/configuration.toml): no such file or directory")),
     [[x5b; x5d]],
     [ReadFile "./res/docker/configuration.toml"; Unmarshal [x5b; x5d];
      ReadFile "./res/configuration.toml"]).
Proof. reflexivity. Qed.

End ConfigLoaderSpec.

(** * Properties of the example's last pipeline function *)
Module SimpleFilterXmlSpec.
Import Go Effects Common Appcontext Runtime Messagebus SimpleFilterXml.

(** X17: [printXMLToConsole] never asks the pipeline to continue and
    never returns an error: whenever it returns, it returns [(false,
    nil)].  It panics exactly when there is a first parameter that is
    not a string, and then nothing is printed, logged or completed; it
    sets the output slot, to the bytes of the string it printed,
    exactly when the first parameter is a string. *)
Theorem printXMLToConsole_never_continues ctx params :
  let r := printXMLToConsole ctx params in
  match r.1 with
  | Return res =>
      res = (false, INil)
      /\ match params with
         | [] => r.2 = {| printed := []; logged := []; context := ctx |}
         | param0 :: _ =>
             exists xml,
               param0 = IString xml
               /\ printed r.2 = [xml]
               /\ OutputData (context r.2) = Some (list_byte_of_string xml)
               /\ CtxCorrelationID (context r.2) = CtxCorrelationID ctx
         end
  | Panic =>
      (exists param0 rest, params = param0 :: rest /\ is_string param0 = false)
      /\ r.2 = {| printed := []; logged := []; context := ctx |}
  end.
Proof.
  cbv zeta. destruct params as [|param0 rest]; [now split|].
  destruct param0; cbn [printXMLToConsole fst snd];
    try (split; [now eexists _, _|reflexivity]).
  split; [reflexivity|]. now eexists.
Qed.

(** X18: the example and the trigger together.  When the pipeline run
    of an arrival ends in [printXMLToConsole] with an XML string, the
    context it leaves is the one a run with that single [Complete]
    leaves, and the worker publishes one envelope with the bytes of the
    string as payload and the correlation id of the arrival, to the
    publish topic of the binding. *)
Theorem printed_xml_is_published trigger msgs xml rest publishErr :
  let ops := [OpComplete (Some (list_byte_of_string xml))] in
  context (printXMLToConsole (new_context trigger msgs) (IString xml :: rest)).2
  = ProcessEvent ops (new_context trigger msgs) msgs
  /\ List.filter is_bus_publish
       (on_message trigger msgs {| stageOps := ops; busPublishErr := publishErr |})
     = [BusPublish {| CorrelationID := CorrelationID msgs;
                      Payload := Some (list_byte_of_string xml);
                      ContentType := ContentTypeJSON |}
          (PublishTopic (Binding (Configuration trigger)))].
Proof.
  cbv zeta. split; [reflexivity|].
  unfold on_message. cbn. now destruct publishErr.
Qed.

End SimpleFilterXmlSpec.
